(** * next-codemod: the [upgrade] command

    A shallow embedding of [packages/next-codemod/bin/upgrade.ts] and the
    properties of its version-gated codemod orchestrator.

    The file is organised as follows:
    - JavaScript string and array primitives used by the command;
    - the data model (catalog entries, prompt choices, registry answers);
    - the effect model: a state-and-exception monad over a world made of
      the file system and the trace of observable actions, parameterised by
      a [Host] record that answers every call leaving the process;
    - the functions of [upgrade.ts], in source order;
    - a sample host used to run the model on concrete inputs;
    - the notions the properties are stated with;
    - the properties: the applicability window, the resolution of a version
      query, the already-current exit, then the shape of every run and what
      follows from it for the order of application, the failures, the
      codemod loop, the install step and the packages installed. *)

From Stdlib Require Import ZArith String Ascii List Lia Sorted.
From stdpp Require Import base option list strings gmap.

Local Open Scope string_scope.
Local Open Scope Z_scope.
Local Open Scope list_scope.

(** ** JavaScript primitives *)

Module JS.

(** [String.prototype.startsWith]. *)
Definition startsWith (s searchString : string) : bool :=
  String.prefix searchString s.

(** [String.prototype.includes]. *)
Fixpoint includes (s searchString : string) : bool :=
  String.prefix searchString s ||
  match s with
  | EmptyString => false
  | String _ s' => includes s' searchString
  end.

(** Drop the first [n] characters of a string. *)
Fixpoint skip (n : nat) (s : string) : string :=
  match n, s with
  | O, _ => s
  | S n', String _ s' => skip n' s'
  | S _, EmptyString => EmptyString
  end.

(** [String.prototype.replace] with a string pattern: only the first
    occurrence is replaced.  The replacement is taken literally (the
    replacement used by the command holds no dollar pattern). *)
Fixpoint replace (s pattern replacement : string) : string :=
  if String.prefix pattern s
  then replacement +:+ skip (String.length pattern) s
  else match s with
       | EmptyString => EmptyString
       | String c s' => String c (replace s' pattern replacement)
       end.

(** [Array.prototype.findIndex]: the index of the first element that
    satisfies the predicate, [-1] when there is none. *)
Fixpoint findIndex {A : Type} (p : A -> bool) (l : list A) : Z :=
  match l with
  | [] => -1
  | x :: l' =>
      if p x then 0
      else let i := findIndex p l' in
           if i <? 0 then -1 else i + 1
  end.

(** [Array.prototype.slice(start, end)], with the relative indices of the
    language: a negative index counts from the end, and both are clamped
    to the array. *)
Definition slice {A : Type} (start end_ : Z) (l : list A) : list A :=
  let len := Z.of_nat (length l) in
  let k := if start <? 0 then Z.max (len + start) 0 else Z.min start len in
  let final := if end_ <? 0 then Z.max (len + end_) 0 else Z.min end_ len in
  take (Z.to_nat (final - k)) (drop (Z.to_nat k) l).

(** The value of [a || b] on strings: the empty string is falsy. *)
Definition or_else (a b : string) : string :=
  match a with
  | EmptyString => b
  | _ => a
  end.

(** Rendering of a possibly [undefined] string inside a template literal. *)
Definition template (o : option string) : string :=
  match o with
  | Some s => s
  | None => "undefined"
  end.

End JS.

(** ** Data model *)

(** [type PackageManager = 'pnpm' | 'npm' | 'yarn' | 'bun'] *)
Inductive PackageManager : Type := pnpm | npm | yarn | bun.

(** An entry of [TRANSFORMER_INQUIRER_CHOICES]: the three fields the command
    destructures, [{ title, value, version }]. *)
Record VersionCodemods : Type := mkVersionCodemods {
  title : string;
  value : string;
  version : string;
}.

(** A choice handed to the multiselect prompt (lines 252-259). *)
Record Choice : Type := mkChoice {
  choice_title : string;
  choice_description : string;
  choice_value : string;
  choice_selected : bool;
}.

(** What [JSON.parse] yields on the output of [npm view ... version]: one
    version, or an array of versions. *)
Inductive NpmViewJson : Type :=
| ViewString (v : string)
| ViewArray (vs : list string).

(** The body of the registry answer for [next/<revision>], as far as the
    command inspects it: [null], a primitive, or an object that has or lacks
    the keys [version] and [peerDependencies] (an array is an object that
    lacks both).  The values under these keys are taken at their declared
    types. *)
Inductive RegistryBody : Type :=
| BodyNull
| BodyPrimitive
| BodyObject (version : option string)
             (peerDependencies : option (gmap string string)).

(** A [fetch] response: its status, and the outcome of [res.json()]
    ([None] when the promise rejects). *)
Record Response : Type := mkResponse {
  status : Z;
  json : option RegistryBody;
}.

(** The application's [package.json] after [JSON.parse]: the [scripts]
    object when present, and everything else kept as it was. *)
Record PackageJson : Type := mkPackageJson {
  scripts : option (gmap string string);
  otherFields : string;
}.

(** The questions asked through [prompts], named after the [name] field of
    each: the confirmation of line 178, the text input of line 204 and the
    multiselect of line 247.  Each carries what the question shows beside
    its fixed message. *)
Inductive Question : Type :=
| AskEnable (initial : bool)
| AskCustomDevScript (initial : string)
| AskCodemods (choices : list Choice).

(** The lines the command prints, each with the values it interpolates. *)
Inductive LogLine : Type :=
| CurrentVersion (installed : string)          (* line 66 *)
| AlreadyOnTarget (target : string)            (* lines 71-73 *)
| CouldNotFindNextDev                          (* lines 200-202 *)
| Upgrading (target : string)                  (* lines 124-126 *)
| Blank                                        (* line 137 *)
| CodemodsApplied                              (* line 139 *)
| ReviewChanges.                               (* lines 141-143 *)

(** Observable actions of a run, in the order they happen. *)
Inductive Event : Type :=
| EvFetch (url : string)
| EvLog (line : LogLine)
| EvNpmView (query : string)
| EvPrompt (q : Question)
| EvWriteFile (path content : string)
| EvInstall (packages : list string) (packageManager : PackageManager)
            (silent : bool)
| EvTransform (codemod directory : string) (force verbose : bool).

(** The exceptions that end a run. *)
Inductive Error : Type :=
| ReadFailed (path : string)          (* fs.readFileSync or JSON.parse, line 42 *)
| FetchRejected (url : string)        (* fetch or res.json(), lines 49-51 *)
| InvalidRevision (revision : option string)          (* line 59 *)
| CannotDetectInstalled                               (* line 154 *)
| NpmViewFailed (query : string)      (* execSync or JSON.parse, lines 18-22 *)
| NoMatchingVersion (query : string)                  (* line 24 *)
| TypeError                           (* property access on undefined *)
| Cancelled                           (* onCancel of a prompt *)
| InstallFailed                       (* installPackages threw *)
| TransformFailed (codemod : string). (* runTransform rejected *)

(** How a call to an imported procedure ends: it returns (its value, here a
    success flag, is discarded by the caller) or it throws. *)
Inductive CallOutcome : Type :=
| Returned (success : bool)
| Threw.

(** ** Effects *)

(** The world a run acts on: the files on disk and the trace so far. *)
Record World : Type := mkWorld {
  files : gmap string string;
  trace : list Event;
}.

(** How a computation ends. *)
Inductive Completion (A : Type) : Type :=
| Returns (a : A)
| Throws (e : Error).
Arguments Returns {A} a.
Arguments Throws {A} e.

(** State and exceptions: the world is kept when an exception is thrown, so
    that what happened before it stays observable. *)
Definition Run (A : Type) : Type := World -> Completion A * World.

#[global] Instance Run_ret : MRet Run :=
  fun A (a : A) (w : World) => (Returns a, w).

#[global] Instance Run_bind : MBind Run :=
  fun A B (f : A -> Run B) (m : Run A) (w : World) =>
    match m w with
    | (Returns a, w') => f a w'
    | (Throws e, w') => (Throws e, w')
    end.

Definition throw {A : Type} (e : Error) : Run A :=
  fun w => (Throws e, w).

Definition emit (e : Event) : Run unit :=
  fun w => (Returns tt, mkWorld (files w) (trace w ++ [e])).

(** [console.log]. *)
Definition console_log (line : LogLine) : Run unit := emit (EvLog line).

(** [fs.writeFileSync]. *)
Definition writeFileSync (path content : string) : Run unit :=
  fun w => (Returns tt,
            mkWorld (<[path := content]> (files w))
                    (trace w ++ [EvWriteFile path content])).

(** Everything outside the process.  Each field answers one kind of call. *)
Record Host : Type := mkHost {
  (** [process.cwd()] *)
  cwd : string;
  (** [JSON.parse] on the text of [package.json]; [None] when it throws. *)
  JSON_parse : string -> option PackageJson;
  (** [JSON.stringify(_, null, 2)]. *)
  JSON_stringify : PackageJson -> string;
  (** [fetch(url)]; [None] when the promise rejects. *)
  fetch : string -> option Response;
  (** [require(require.resolve('next/package.json', ...)).version];
      [None] when resolution throws. *)
  installedNext : option string;
  (** [execSync] of [npm view] followed by [JSON.parse]; [None] when either
      throws. *)
  npm_view : string -> option NpmViewJson;
  (** Answers of the user; [None] is a cancellation. *)
  answer_enable : bool -> option bool;
  answer_customDevScript : string -> option string;
  answer_codemods : list Choice -> option (list string);
  (** [getPkgManager] of [lib/handle-package]. *)
  getPkgManager : string -> PackageManager;
  (** [installPackages] of [lib/handle-package]. *)
  installPackages : list string -> PackageManager -> bool -> CallOutcome;
  (** [runTransform] of [bin/transform]. *)
  runTransform : string -> string -> bool -> bool -> CallOutcome;
}.

(** ** The command *)

Section Upgrade.

(** [compareVersions] of the package [compare-versions]: negative, zero or
    positive as the first version precedes, equals or follows the second. *)
Variable compareVersions : string -> string -> Z.

(** The catalog of codemods, [TRANSFORMER_INQUIRER_CHOICES] of
    [lib/utils]. *)
Variable TRANSFORMER_INQUIRER_CHOICES : list VersionCodemods.

Variable host : Host.

(** [versionOrVersions.length], on a string or on an array. *)
Definition length_of (versionOrVersions : NpmViewJson) : Z :=
  match versionOrVersions with
  | ViewString v => Z.of_nat (String.length v)
  | ViewArray vs => Z.of_nat (length vs)
  end.

(** Lines 17-34. *)
Definition loadHighestNPMVersionMatching (query : string) : Run string :=
  _ ← emit (EvNpmView query);
  match npm_view host query with
  | None => throw (NpmViewFailed query)
  | Some versionOrVersions =>
      if length_of versionOrVersions <? 1
      then throw (NoMatchingVersion query)
      else match versionOrVersions with
           | ViewArray vs =>
               (* versionOrVersions[versionOrVersions.length - 1] *)
               match vs !! Z.to_nat (Z.of_nat (length vs) - 1) with
               | Some v => mret v
               | None => throw TypeError
               end
           | ViewString v => mret v
           end
  end.

(** Lines 146-161. *)
Definition getInstalledNextVersion : Run string :=
  match installedNext host with
  | Some v => mret v
  | None => throw CannotDetectInstalled
  end.

(** Modelled from the spec: [onCancel], the cancellation handler of
    [lib/utils] passed to every prompt, for which a cancellation must abort
    the entire run.  The three prompts below end the run with [Cancelled]
    when the user cancels, and answer what the user chose otherwise. *)
Definition prompts_enable (initial : bool) : Run bool :=
  _ ← emit (EvPrompt (AskEnable initial));
  match answer_enable host initial with
  | Some enable => mret enable
  | None => throw Cancelled
  end.

Definition prompts_customDevScript (initial : string) : Run string :=
  _ ← emit (EvPrompt (AskCustomDevScript initial));
  match answer_customDevScript host initial with
  | Some customDevScript => mret customDevScript
  | None => throw Cancelled
  end.

Definition prompts_codemods (choices : list Choice) : Run (list string) :=
  _ ← emit (EvPrompt (AskCodemods choices));
  match answer_codemods host choices with
  | Some codemods => mret codemods
  | None => throw Cancelled
  end.

(** [packageJson.scripts['dev'] = s], on the shared object. *)
Definition set_dev (packageJson : PackageJson) (sc : gmap string string)
    (s : string) : PackageJson :=
  mkPackageJson (Some (<["dev" := s]> sc)) (otherFields packageJson).

(** Lines 174-216.  The object is mutated in place by the source; here the
    updated object is returned. *)
Definition suggestTurbopack (packageJson : PackageJson) : Run PackageJson :=
  match scripts packageJson with
  | None => throw TypeError
  | Some sc =>
      match sc !! "dev" with
      | None => throw TypeError
      | Some devScript =>
          if JS.includes devScript "--turbo" then mret packageJson
          else
            enable ← prompts_enable true;
            if negb enable then mret packageJson
            else if JS.includes devScript "next dev"
            then mret (set_dev packageJson sc
                         (JS.replace devScript "next dev" "next dev --turbo"))
            else
              _ ← console_log CouldNotFindNextDev;
              customDevScript ← prompts_customDevScript devScript;
              mret (set_dev packageJson sc
                      (JS.or_else customDevScript devScript))
      end
  end.

(** Lines 222-241: the slice of the catalog between the two indices. *)
Definition relevantCodemods (initialNextVersion targetNextVersion : string)
    : list VersionCodemods :=
  let initialVersionIndex :=
    JS.findIndex
      (fun versionCodemods =>
         compareVersions (version versionCodemods) initialNextVersion >? 0)
      TRANSFORMER_INQUIRER_CHOICES in
  if initialVersionIndex =? -1 then []
  else
    let targetVersionIndex :=
      JS.findIndex
        (fun versionCodemods =>
           compareVersions (version versionCodemods) targetNextVersion >? 0)
        TRANSFORMER_INQUIRER_CHOICES in
    let targetVersionIndex :=
      if targetVersionIndex =? -1
      then Z.of_nat (length TRANSFORMER_INQUIRER_CHOICES)
      else targetVersionIndex in
    JS.slice initialVersionIndex targetVersionIndex
             TRANSFORMER_INQUIRER_CHOICES.

(** Lines 252-259: the choice shown for a catalog entry. *)
Definition toChoice (vc : VersionCodemods) : Choice :=
  mkChoice ("(v" +:+ version vc +:+ ") " +:+ value vc) (title vc)
           (value vc) true.

(** Lines 218-265. *)
Definition suggestCodemods (initialNextVersion targetNextVersion : string)
    : Run (list string) :=
  let relevant := relevantCodemods initialNextVersion targetNextVersion in
  if Z.of_nat (length relevant) =? 0 then mret []
  else prompts_codemods (map toChoice (rev relevant)).

(** Run a computation and keep how it ended: an [async] call whose promise
    is awaited later. *)
Definition started {A : Type} (m : Run A) : Run (Completion A) :=
  fun w => let (r, w') := m w in (Returns r, w').

(** [await Promise.all([p1, p2])] on two promises already started: the
    first rejection in array order is thrown. *)
Definition Promise_all2 {A : Type} (p1 p2 : Completion A) : Run (A * A) :=
  match p1, p2 with
  | Returns a1, Returns a2 => mret (a1, a2)
  | Throws e, _ => throw e
  | _, Throws e => throw e
  end.

(** Lines 103-106. *)
Definition isReact19Prerelease (targetReactVersion : string) : bool :=
  JS.startsWith targetReactVersion "19.0.0-canary" ||
  JS.startsWith targetReactVersion "19.0.0-beta" ||
  JS.startsWith targetReactVersion "19.0.0-rc".

(** Lines 99-122: the list [reactDependencies]. *)
Definition reactDependencies (targetReactVersion reactRange : string)
    : Run (list string) :=
  let reactDependencies :=
    [ "react@" +:+ targetReactVersion;
      "react-dom@" +:+ targetReactVersion ] in
  if isReact19Prerelease targetReactVersion
  then mret (reactDependencies
             ++ [ "@types/react@npm:types-react@rc" ]
             ++ [ "@types/react-dom@npm:types-react-dom@rc" ])
  else
    p1 ← started (loadHighestNPMVersionMatching
                    ("@types/react@" +:+ reactRange));
    p2 ← started (loadHighestNPMVersionMatching
                    ("@types/react-dom@" +:+ reactRange));
    '(targetReactTypesVersion, targetReactDOMTypesVersion) ←
      Promise_all2 p1 p2;
    mret (reactDependencies
          ++ [ "@types/react@" +:+ targetReactTypesVersion ]
          ++ [ "@types/react-dom@" +:+ targetReactDOMTypesVersion ]).

(** One call of an imported procedure: the call is recorded, and its
    exception, if any, is thrown on. *)
Definition call (e : Event) (o : CallOutcome) (err : Error) : Run unit :=
  _ ← emit e;
  match o with
  | Returned _ => mret tt
  | Threw => throw err
  end.

(** Lines 133-135: the loop over the selected codemods. *)
Fixpoint applyCodemods (codemods : list string) (verbose : bool)
    : Run unit :=
  match codemods with
  | [] => mret tt
  | codemod :: rest =>
      _ ← call (EvTransform codemod (cwd host) true verbose)
               (runTransform host codemod (cwd host) true verbose)
               (TransformFailed codemod);
      applyCodemods rest verbose
  end.

(** Where [runUpgrade] returns. *)
Inductive ReturnPoint : Type :=
| ReturnAlreadyCurrent     (* line 74 *)
| ReturnEnd.               (* line 144 *)

(** [JSON.parse(fs.readFileSync(path, 'utf8'))], line 42. *)
Definition readPackageJson (path : string) : Run PackageJson :=
  fun w =>
    match files w !! path ≫= JSON_parse host with
    | Some packageJson => (Returns packageJson, w)
    | None => (Throws (ReadFailed path), w)
    end.

(** Lines 97-144 of [runUpgrade]: what follows the write of the
    manifest. *)
Definition installAndTransform
    (targetNextVersion targetReactVersion reactRange : string)
    (codemods : list string) (verbose : bool) : Run ReturnPoint :=
  let packageManager := getPkgManager host (cwd host) in
  let nextDependency := "next@" +:+ targetNextVersion in
  reactDependencies ← reactDependencies targetReactVersion reactRange;
  _ ← console_log (Upgrading targetNextVersion);
  _ ← call (EvInstall (nextDependency :: reactDependencies)
                      packageManager (negb verbose))
           (installPackages host (nextDependency :: reactDependencies)
                            packageManager (negb verbose))
           InstallFailed;
  _ ← applyCodemods codemods verbose;
  _ ← console_log Blank;
  _ ← (if Z.of_nat (length codemods) >? 0
       then console_log CodemodsApplied
       else mret tt);
  _ ← console_log ReviewChanges;
  mret ReturnEnd.

(** Lines 36-95 of [runUpgrade], followed by the steps above. *)
Definition runUpgrade (revision : option string) (verbose : bool)
    : Run ReturnPoint :=
  let appPackageJsonPath := cwd host +:+ "/package.json" in
  appPackageJson ← readPackageJson appPackageJsonPath;
  let url := "https://registry.npmjs.org/next/" +:+ JS.template revision in
  _ ← emit (EvFetch url);
  targetNextPackageJson ←
    match fetch host url with
    | None => throw (FetchRejected url)
    | Some res =>
        if status res =? 200
        then match json res with
             | Some body => mret (Some body)
             | None => throw (FetchRejected url)
             end
        else mret None
    end;
  (* validRevision: not null, of type object, with both keys *)
  match targetNextPackageJson with
  | Some (BodyObject (Some targetNextVersion) (Some peerDependencies)) =>
      installedNextVersion ← getInstalledNextVersion;
      _ ← console_log (CurrentVersion installedNextVersion);
      if compareVersions installedNextVersion targetNextVersion >=? 0
      then
        _ ← console_log (AlreadyOnTarget targetNextVersion);
        mret ReturnAlreadyCurrent
      else
        let reactRange := JS.template (peerDependencies !! "react") in
        targetReactVersion ←
          loadHighestNPMVersionMatching ("react@" +:+ reactRange);
        appPackageJson ←
          (if compareVersions targetNextVersion "15.0.0-canary" >=? 0
           then suggestTurbopack appPackageJson
           else mret appPackageJson);
        codemods ← suggestCodemods installedNextVersion targetNextVersion;
        _ ← writeFileSync appPackageJsonPath
              (JSON_stringify host appPackageJson);
        installAndTransform targetNextVersion targetReactVersion reactRange
                            codemods verbose
  | _ => throw (InvalidRevision revision)
  end.

End Upgrade.

(** ** A sample environment

    A comparator, a catalog and a host on which the model runs by
    computation. *)

Module Sample.

Definition digit (c : ascii) : option Z :=
  let n := Z.of_nat (nat_of_ascii c) in
  if (48 <=? n) && (n <=? 57) then Some (n - 48) else None.

(** Read the dotted numeric fields of a version; the flag tells whether
    anything (a prerelease tag) follows them. *)
Fixpoint scan (s : string) (cur : Z) (fields : list Z) : list Z * bool :=
  match s with
  | EmptyString => (fields ++ [cur], false)
  | String c s' =>
      match digit c with
      | Some d => scan s' (cur * 10 + d) fields
      | None =>
          if Ascii.eqb c "."%char then scan s' 0 (fields ++ [cur])
          else (fields ++ [cur], true)
      end
  end.

Definition versionKey (v : string) : Z :=
  let '(fields, pre) := scan v 0 [] in
  let f i := nth i fields 0 in
  ((f 0%nat * 10000 + f 1%nat) * 10000 + f 2%nat) * 2
  + (if pre then 0 else 1).

(** A comparator that agrees with semantic-version precedence on
    [major.minor.patch] with fields below 10000, and places a prerelease
    just before its release; two prereleases of one release compare
    equal. *)
Definition compareVersions (v1 v2 : string) : Z :=
  match versionKey v1 ?= versionKey v2 with
  | Lt => -1
  | Eq => 0
  | Gt => 1
  end.

Definition A := mkVersionCodemods "first codemod" "A" "14.0.0".
Definition B := mkVersionCodemods "second codemod" "B" "15.0.0".
Definition C := mkVersionCodemods "third codemod" "C" "15.2.0".

Definition catalog : list VersionCodemods := [A; B; C].

Definition reactRange : string := "^18.2.0 || ^19.0.0".

(** The registry knows [next@15.0.0] only. *)
Definition registry (url : string) : option Response :=
  if String.eqb url "https://registry.npmjs.org/next/15.0.0"
  then Some (mkResponse 200
               (Some (BodyObject (Some "15.0.0")
                                 (Some {[ "react" := reactRange ]}))))
  else Some (mkResponse 404 (Some BodyPrimitive)).

(** Published versions, in the order [npm view] lists them. *)
Definition published (query : string) : option NpmViewJson :=
  if String.eqb query ("react@" +:+ reactRange)
  then Some (ViewArray ["18.2.0"; "18.3.1"; "19.0.0"])
  else if String.eqb query ("@types/react@" +:+ reactRange)
  then Some (ViewArray ["18.2.0"; "18.3.12"; "19.0.1"])
  else if String.eqb query ("@types/react-dom@" +:+ reactRange)
  then Some (ViewString "19.0.0")
  else Some (ViewArray []).

(** The manifest text is reduced to its dev script. *)
Definition parse (text : string) : option PackageJson :=
  Some (mkPackageJson (Some {[ "dev" := text ]}) EmptyString).

Definition stringify (p : PackageJson) : string :=
  match scripts p ≫= (.!! "dev") with
  | Some s => s
  | None => EmptyString
  end.

(** A registry on which a patch of the previous major of [@types/react] was
    published after the first release of the next major. *)
Definition backported (query : string) : option NpmViewJson :=
  if String.eqb query ("@types/react@" +:+ reactRange)
  then Some (ViewArray ["18.3.11"; "19.0.0"; "18.3.12"])
  else published query.

(** A registry with no version of [@types/react] in the range. *)
Definition untyped (query : string) : option NpmViewJson :=
  if String.eqb query ("@types/react@" +:+ reactRange)
  then Some (ViewArray [])
  else published query.

(** A registry on which the range of [react] resolves to a release
    candidate. *)
Definition releaseCandidate (query : string) : option NpmViewJson :=
  if String.eqb query ("react@" +:+ reactRange)
  then Some (ViewString "19.0.0-rc-66855b96-20241106")
  else published query.

(** A transform runner that fails on codemod [B]. *)
Definition failingOnB (codemod : string) : CallOutcome :=
  if String.eqb codemod "B" then Threw else Returned true.

(** A user who accepts every default. *)
Definition hostWith (installed : string) (view : string -> option NpmViewJson)
    (install : CallOutcome) (transform : string -> CallOutcome) : Host :=
  {| cwd := "/app";
     JSON_parse := parse;
     JSON_stringify := stringify;
     fetch := registry;
     installedNext := Some installed;
     npm_view := view;
     answer_enable := fun initial => Some initial;
     answer_customDevScript := fun initial => Some initial;
     answer_codemods := fun choices => Some (map choice_value choices);
     getPkgManager := fun _ => npm;
     installPackages := fun _ _ _ => install;
     runTransform := fun codemod _ _ _ => transform codemod |}.

(** A project with Next.js 13, where installing and transforming succeed. *)
Definition host : Host :=
  hostWith "13.0.0" published (Returned true) (fun _ => Returned true).

Definition disk : gmap string string := {[ "/app/package.json" := "next dev" ]}.

Definition world : World := mkWorld disk [].

Definition run (h : Host) (revision : string)
    : Completion ReturnPoint * World :=
  runUpgrade compareVersions catalog h (Some revision) false world.

End Sample.

(** ** Further sample environments

    Projects and registries for the cases the sample above does not reach:
    an upgrade that stays below Next.js 15, a manifest without a dev script,
    a dev script that does not call [next dev], a release that declares no
    [react] peer. *)

Module Cases.

(** A registry that also knows [next@14.2.0], and a release [15.1.0] that
    declares no [react] peer. *)
Definition registry (url : string) : option Response :=
  if String.eqb url "https://registry.npmjs.org/next/14.2.0"
  then Some (mkResponse 200
               (Some (BodyObject (Some "14.2.0")
                                 (Some {[ "react" := Sample.reactRange ]}))))
  else if String.eqb url "https://registry.npmjs.org/next/15.1.0"
  then Some (mkResponse 200
               (Some (BodyObject (Some "15.1.0")
                                 (Some {[ "sass" := "^1.3.0" ]}))))
  else Sample.registry url.

(** A manifest whose text is empty has no [scripts.dev]; any other text is
    the dev script, next to a build script. *)
Definition parse (text : string) : option PackageJson :=
  match text with
  | EmptyString => Some (mkPackageJson (Some {[ "build" := "next build" ]})
                                       EmptyString)
  | _ => Some (mkPackageJson
                 (Some {[ "dev" := text; "build" := "next build" ]})
                 EmptyString)
  end.

(** A user who answers the Turbopack question with [enable] and types
    [custom] when asked for the dev command. *)
Definition hostOf (installed : string) (enable : bool) (custom : string)
    : Host :=
  {| cwd := "/app";
     JSON_parse := parse;
     JSON_stringify := Sample.stringify;
     fetch := registry;
     installedNext := Some installed;
     npm_view := Sample.published;
     answer_enable := fun _ => Some enable;
     answer_customDevScript := fun _ => Some custom;
     answer_codemods := fun choices => Some (map choice_value choices);
     getPkgManager := fun _ => pnpm;
     installPackages := fun _ _ _ => Returned true;
     runTransform := fun _ _ _ _ => Returned false |}.

(** The same host in a directory where Next.js is not installed. *)
Definition undetected : Host :=
  {| cwd := "/app";
     JSON_parse := parse;
     JSON_stringify := Sample.stringify;
     fetch := registry;
     installedNext := None;
     npm_view := Sample.published;
     answer_enable := fun _ => Some true;
     answer_customDevScript := fun _ => Some EmptyString;
     answer_codemods := fun choices => Some (map choice_value choices);
     getPkgManager := fun _ => pnpm;
     installPackages := fun _ _ _ => Returned true;
     runTransform := fun _ _ _ _ => Returned false |}.

(** The project of a manifest text. *)
Definition worldOf (text : string) : World :=
  mkWorld {[ "/app/package.json" := text; "/app/next.config.js" := "{}" ]} [].

Definition withDev (devScript : string) : PackageJson :=
  mkPackageJson (Some {[ "dev" := devScript; "build" := "next build" ]})
                EmptyString.

Definition run (h : Host) (text revision : string)
    : Completion ReturnPoint * World :=
  runUpgrade Sample.compareVersions Sample.catalog h (Some revision) true
             (worldOf text).

End Cases.

(** ** Notions used by the properties *)

(** The number of leading elements of a list that fail a test. *)
Fixpoint leading {A : Type} (p : A -> bool) (l : list A) : nat :=
  match l with
  | [] => O
  | x :: l' => if p x then O else S (leading p l')
  end.

(** The applicability window of an upgrade from [installed] to [target]:
    introduced after [installed], and not after [target]. *)
Definition inWindow (compareVersions : string -> string -> Z)
    (installed target : string) (vc : VersionCodemods) : Prop :=
  0 < compareVersions (version vc) installed /\
  compareVersions (version vc) target <= 0.

#[global] Instance inWindow_dec cmp installed target vc :
  Decision (inWindow cmp installed target vc).
Proof. unfold inWindow. apply _. Defined.

(** The test of lines 222-233: the entry was introduced after version
    [v]. *)
Definition introducedAfter (compareVersions : string -> string -> Z)
    (v : string) (vc : VersionCodemods) : bool :=
  compareVersions (version vc) v >? 0.

(** A catalog in ascending order of the version that introduced each
    entry. *)
Definition ascending (compareVersions : string -> string -> Z)
    (catalog : list VersionCodemods) : Prop :=
  StronglySorted
    (fun c1 c2 => compareVersions (version c1) (version c2) <= 0) catalog.

(** A test that, once passed by an element of the list, is passed by all
    that follow. *)
Definition upward {A : Type} (p : A -> bool) (l : list A) : Prop :=
  StronglySorted (fun x y => p x = true -> p y = true) l.

(** The versions an answer of [npm view] stands for. *)
Definition resultSet (versionOrVersions : NpmViewJson) : list string :=
  match versionOrVersions with
  | ViewString v => [v]
  | ViewArray vs => vs
  end.

(** What a trace holds of each kind of action, in order: the codemods
    transformed, the registry queries, the lists of choices offered, the
    package lists installed and the files written. *)
Definition transformsOf (evs : list Event) : list string :=
  omap (fun e => match e with EvTransform c _ _ _ => Some c | _ => None end)
       evs.

Definition queriesOf (evs : list Event) : list string :=
  omap (fun e => match e with EvNpmView q => Some q | _ => None end) evs.

Definition offered (evs : list Event) : list (list Choice) :=
  omap (fun e => match e with
                 | EvPrompt (AskCodemods cs) => Some cs
                 | _ => None
                 end) evs.

Definition installsOf (evs : list Event) : list (list string) :=
  omap (fun e => match e with EvInstall ds _ _ => Some ds | _ => None end) evs.

Definition writesOf (evs : list Event) : list (string * string) :=
  omap (fun e => match e with
                 | EvWriteFile path content => Some (path, content)
                 | _ => None
                 end) evs.

(** The codemods the user selected during a trace: the answer to the list
    of choices offered, none when nothing was offered or the prompt was
    cancelled. *)
Definition selected (host : Host) (evs : list Event) : list string :=
  match offered evs with
  | cs :: _ => default [] (answer_codemods host cs)
  | [] => []
  end.

(** Printed lines and the two questions about Turbopack. *)
Definition chat (e : Event) : Prop :=
  match e with
  | EvLog _ | EvPrompt (AskEnable _) | EvPrompt (AskCustomDevScript _) => True
  | _ => False
  end.

(** [w'] is [w] after the actions [evs], none of which touched a file. *)
Definition grows (w w' : World) (evs : list Event) : Prop :=
  files w' = files w /\ trace w' = trace w ++ evs.

(** The registry resolves the revision to a release with the given version
    and peer dependencies. *)
Definition resolves (host : Host) (revision : option string)
    (target : string) (peerDependencies : gmap string string) : Prop :=
  exists res,
    fetch host ("https://registry.npmjs.org/next/" +:+ JS.template revision)
    = Some res /\
    status res = 200 /\
    json res = Some (BodyObject (Some target) (Some peerDependencies)).

(** The exceptions raised before the manifest is written: reading, the
    revision, the installed version, the [react] query, the prompts. *)
Definition earlyEnd (r : Completion ReturnPoint) : Prop :=
  match r with
  | Returns p => p = ReturnAlreadyCurrent
  | Throws e =>
      match e with
      | ReadFailed _ | FetchRejected _ | InvalidRevision _
      | CannotDetectInstalled | TypeError | Cancelled => True
      | NpmViewFailed q | NoMatchingVersion q =>
          JS.startsWith q "react@" = true
      | InstallFailed | TransformFailed _ => False
      end
  end.

(** The failures of the revision, of the installed version and of the
    [react] query. *)
Definition resolutionFailure (e : Error) : Prop :=
  match e with
  | FetchRejected _ | InvalidRevision _ | CannotDetectInstalled => True
  | NpmViewFailed q | NoMatchingVersion q => JS.startsWith q "react@" = true
  | _ => False
  end.

(** The failures of the two [@types] queries. *)
Definition typesFailure (e : Error) : Prop :=
  match e with
  | NpmViewFailed q | NoMatchingVersion q => JS.startsWith q "@types/" = true
  | _ => False
  end.

(** The dev script of a manifest, when it has one. *)
Definition devScriptOf (packageJson : PackageJson) : option string :=
  scripts packageJson ≫= (.!! "dev").

(** The manifest of the project is read and parsed to [appPackageJson]. *)
Definition reads (host : Host) (w : World) (appPackageJson : PackageJson)
    : Prop :=
  exists text,
    files w !! (cwd host +:+ "/package.json") = Some text /\
    JSON_parse host text = Some appPackageJson.

(** A run gets past line 75: the manifest is read, the revision resolves,
    and the installed version precedes the target. *)
Definition upgradable (compareVersions : string -> string -> Z)
    (host : Host) (revision : option string) (w : World)
    (appPackageJson : PackageJson) (installed target : string)
    (peerDependencies : gmap string string) : Prop :=
  reads host w appPackageJson /\
  resolves host revision target peerDependencies /\
  installedNext host = Some installed /\
  compareVersions installed target < 0.

(** Lines 86-88: Turbopack is suggested from 15.0.0-canary on. *)
Definition turbopackStep (compareVersions : string -> string -> Z)
    (host : Host) (target : string) (appPackageJson : PackageJson)
    : Run PackageJson :=
  if compareVersions target "15.0.0-canary" >=? 0
  then suggestTurbopack host appPackageJson
  else mret appPackageJson.

(** The actions of lines 97-144: queries, printed lines, the install and
    the transforms. *)
Definition afterWrite (e : Event) : Prop :=
  match e with
  | EvNpmView _ | EvLog _ | EvInstall _ _ _ | EvTransform _ _ _ _ => True
  | _ => False
  end.

(** A computation that, from any world, adds to the trace only actions
    that satisfy [P]. *)
Definition emitsOnly {A : Type} (P : Event -> Prop) (m : Run A) : Prop :=
  forall w r w', m w = (r, w') ->
    exists evs, trace w' = trace w ++ evs /\ Forall P evs.

(** Anything but one of the two questions about Turbopack. *)
Definition noTurbopackQuestion (e : Event) : Prop :=
  match e with
  | EvPrompt (AskEnable _) | EvPrompt (AskCustomDevScript _) => False
  | _ => True
  end.

(** Closes the case of a run that ended after the actions [evs], before
    the manifest was written. *)
Ltac ended_early evs :=
  left; exists evs;
  split; [split; [reflexivity | simpl; rewrite <- ?app_assoc; reflexivity]|];
  repeat split; auto.

(** ** Arrays *)

Section Arrays.

Context {A : Type}.
Implicit Types (p q : A -> bool) (l : list A).

Lemma leading_le p l : (leading p l <= length l)%nat.
Proof. induction l as [|x l IH]; simpl; [lia|]. destruct (p x); simpl; lia. Qed.

(** [findIndex] counts the leading failures, and answers [-1] when they
    make up the whole array. *)
Lemma findIndex_leading p l :
  JS.findIndex p l =
  if decide (leading p l < length l)%nat
  then Z.of_nat (leading p l) else -1.
Proof.
  induction l as [|x l IH]; simpl.
  - reflexivity.
  - destruct (p x); simpl.
    + case_decide; [reflexivity | lia].
    + rewrite IH. repeat case_decide; try lia.
      * destruct (Z.ltb_spec (Z.of_nat (leading p l)) 0); lia.
      * reflexivity.
Qed.

Lemma slice_nat (i j : nat) l :
  (i <= length l)%nat -> (j <= length l)%nat ->
  JS.slice (Z.of_nat i) (Z.of_nat j) l = take (j - i) (drop i l).
Proof.
  intros Hi Hj. unfold JS.slice.
  destruct (Z.ltb_spec (Z.of_nat i) 0); [lia|].
  destruct (Z.ltb_spec (Z.of_nat j) 0); [lia|].
  f_equal; [lia | f_equal; lia].
Qed.

Lemma upward_tail p x l : upward p (x :: l) -> upward p l.
Proof. intros H. inversion H; assumption. Qed.

Lemma upward_head p x l :
  upward p (x :: l) -> p x = true -> Forall (fun y => p y = true) l.
Proof.
  intros H Hx. inversion H as [|? ? _ Hall]; subst.
  eapply Forall_impl; [exact Hall | auto].
Qed.

Lemma filter_none (P : A -> Prop) `{!forall x, Decision (P x)} l :
  Forall (fun x => ~ P x) l -> filter P l = [].
Proof.
  induction 1 as [|x l Hx _ IH]; [reflexivity|].
  rewrite filter_cons_False by assumption. exact IH.
Qed.

(** Between the first element passing [p] and the first passing [q], an
    array on which both tests are upward holds exactly the elements that
    pass [p] and fail [q]. *)
Lemma take_drop_leading p q l :
  upward p l -> upward q l ->
  take (leading q l - leading p l) (drop (leading p l) l) =
  filter (fun x => p x = true /\ q x <> true) l.
Proof.
  induction l as [|x l IH]; intros Hp Hq; [reflexivity|].
  specialize (IH (upward_tail _ _ _ Hp) (upward_tail _ _ _ Hq)).
  simpl leading.
  destruct (q x) eqn:Eq.
  - (* everything from [x] on passes [q] *)
    pose proof (upward_head _ _ _ Hq Eq) as Hall.
    rewrite Nat.sub_0_l, take_0.
    symmetry. apply filter_none. constructor.
    + rewrite Eq. intros [_ H]. apply H. reflexivity.
    + eapply Forall_impl; [exact Hall|]. simpl. intros y Hy [_ H]. auto.
  - destruct (p x) eqn:Ep.
    + pose proof (upward_head _ _ _ Hp Ep) as Hall.
      rewrite Nat.sub_0_r, drop_0. simpl take.
      rewrite filter_cons_True by (rewrite Ep, Eq; split; congruence).
      f_equal. rewrite <- IH.
      destruct Hall as [|y l' Hy _]; [reflexivity|].
      simpl leading. rewrite Hy, Nat.sub_0_r, drop_0. reflexivity.
    + simpl. rewrite filter_cons_False by (rewrite Ep; intros [H _]; congruence).
      exact IH.
Qed.

End Arrays.

(** ** The applicability window *)

Section Window.

Variable compareVersions : string -> string -> Z.
Variable catalog : list VersionCodemods.

Hypothesis compare_trans : forall a b c,
  compareVersions a b <= 0 -> compareVersions b c <= 0 ->
  compareVersions a c <= 0.

Hypothesis catalog_ascending : ascending compareVersions catalog.

Lemma after_upward v : upward (introducedAfter compareVersions v) catalog.
Proof.
  unfold upward, introducedAfter. revert catalog_ascending. unfold ascending.
  generalize catalog as l.
  induction 1 as [|x l _ IH Hall]; constructor; [exact IH|].
  eapply Forall_impl; [exact Hall|]. simpl. intros y Hxy Hx.
  apply Z.gtb_lt in Hx. apply Z.gtb_lt.
  destruct (Z.lt_ge_cases 0 (compareVersions (version y) v)) as [|Hy];
    [assumption|].
  pose proof (compare_trans _ _ _ Hxy Hy). lia.
Qed.

Lemma relevantCodemods_leading installed target :
  relevantCodemods compareVersions catalog installed target =
  take (leading (introducedAfter compareVersions target) catalog
        - leading (introducedAfter compareVersions installed) catalog)
       (drop (leading (introducedAfter compareVersions installed) catalog)
             catalog).
Proof.
  unfold relevantCodemods.
  fold (introducedAfter compareVersions installed)
       (introducedAfter compareVersions target).
  rewrite !findIndex_leading.
  set (i := leading (introducedAfter compareVersions installed) catalog).
  set (j := leading (introducedAfter compareVersions target) catalog).
  assert (i <= length catalog)%nat as Hi by apply leading_le.
  assert (j <= length catalog)%nat as Hj by apply leading_le.
  destruct (decide (i < length catalog)%nat) as [Hlt|Hge].
  - destruct (Z.eqb_spec (Z.of_nat i) (-1)); [lia|].
    destruct (decide (j < length catalog)%nat) as [Hlt'|Hge'].
    + destruct (Z.eqb_spec (Z.of_nat j) (-1)); [lia|].
      apply slice_nat; lia.
    + simpl. replace j with (length catalog) by lia.
      apply slice_nat; lia.
  - simpl. rewrite drop_ge by lia. rewrite take_nil. reflexivity.
Qed.

Lemma relevantCodemods_filter installed target :
  relevantCodemods compareVersions catalog installed target =
  filter (inWindow compareVersions installed target) catalog.
Proof.
  rewrite relevantCodemods_leading.
  rewrite take_drop_leading by apply after_upward.
  apply list_filter_iff. intros vc. unfold inWindow, introducedAfter.
  rewrite Z.gtb_lt.
  destruct (Z.gtb_spec (compareVersions (version vc) target) 0);
    intuition (try lia; try congruence).
Qed.

End Window.

(** C3.  The applicability window is half-open.  On a catalog kept in
    ascending version order, under a transitive comparison, the entries
    that [suggestCodemods] computes (the slice of lines 222-241, which it
    then offers) are exactly the catalog entries introduced strictly after
    the installed version and not after the target version, in catalog
    order: an entry of the catalog is among them if and only if its version
    compares greater than the installed one and less than or equal to the
    target one. *)
Theorem C3_half_open_window
    (compareVersions : string -> string -> Z)
    (catalog : list VersionCodemods) (installed target : string) :
  (forall a b c, compareVersions a b <= 0 -> compareVersions b c <= 0 ->
                 compareVersions a c <= 0) ->
  ascending compareVersions catalog ->
  relevantCodemods compareVersions catalog installed target =
    filter (inWindow compareVersions installed target) catalog /\
  forall vc, vc ∈ catalog ->
    (vc ∈ relevantCodemods compareVersions catalog installed target <->
     0 < compareVersions (version vc) installed /\
     compareVersions (version vc) target <= 0).
Proof.
  intros Htrans Hasc.
  pose proof (relevantCodemods_filter _ _ Htrans Hasc installed target) as E.
  split; [exact E|].
  intros vc Hin. rewrite E, list_elem_of_filter. unfold inWindow. tauto.
Qed.

(** The sample comparator is transitive and the sample catalog ascending. *)
Lemma sample_compare_le v1 v2 :
  Sample.compareVersions v1 v2 <= 0 <->
  Sample.versionKey v1 <= Sample.versionKey v2.
Proof.
  unfold Sample.compareVersions.
  destruct (Z.compare_spec (Sample.versionKey v1) (Sample.versionKey v2)); lia.
Qed.

Lemma sample_compare_trans a b c :
  Sample.compareVersions a b <= 0 -> Sample.compareVersions b c <= 0 ->
  Sample.compareVersions a c <= 0.
Proof. rewrite !sample_compare_le. lia. Qed.

Lemma sample_catalog_ascending :
  ascending Sample.compareVersions Sample.catalog.
Proof.
  unfold ascending, Sample.catalog.
  repeat constructor; vm_compute; discriminate.
Qed.

Lemma C3_half_open_window_witness :
  Sample.B ∈ relevantCodemods Sample.compareVersions Sample.catalog
               "13.0.0" "15.0.0" <->
  0 < Sample.compareVersions "15.0.0" "13.0.0" /\
  Sample.compareVersions "15.0.0" "15.0.0" <= 0.
Proof.
  refine (proj2 (C3_half_open_window Sample.compareVersions Sample.catalog
                   "13.0.0" "15.0.0"
                   sample_compare_trans sample_catalog_ascending)
                Sample.B _).
  unfold Sample.catalog. repeat constructor.
Defined.

(** ** Resolution of a version query *)

Lemma loadHighest_world host query w :
  snd (loadHighestNPMVersionMatching host query w) =
  mkWorld (files w) (trace w ++ [EvNpmView query]).
Proof.
  unfold loadHighestNPMVersionMatching, mbind, Run_bind, emit, throw, mret,
    Run_ret.
  destruct (npm_view host query) as [j|]; [|reflexivity].
  destruct (length_of j <? 1); [reflexivity|].
  destruct j as [v|vs]; [reflexivity|].
  destruct (vs !! _); reflexivity.
Qed.

(** What the function answers does not depend on the world. *)
Lemma loadHighest_result host query w1 w2 :
  fst (loadHighestNPMVersionMatching host query w1) =
  fst (loadHighestNPMVersionMatching host query w2).
Proof.
  unfold loadHighestNPMVersionMatching, mbind, Run_bind, emit, throw, mret,
    Run_ret.
  destruct (npm_view host query) as [j|]; [|reflexivity].
  destruct (length_of j <? 1); [reflexivity|].
  destruct j as [v|vs]; [reflexivity|].
  destruct (vs !! _); reflexivity.
Qed.

(** On an array, the function answers its last entry. *)
Lemma loadHighest_last host query vs v w :
  npm_view host query = Some (ViewArray vs) ->
  last vs = Some v ->
  fst (loadHighestNPMVersionMatching host query w) = Returns v.
Proof.
  intros Hview Hlast.
  unfold loadHighestNPMVersionMatching, mbind, Run_bind, emit, throw, mret,
    Run_ret.
  rewrite Hview. unfold length_of.
  assert (length vs <> 0%nat) as Hlen by (destruct vs; [discriminate | simpl; lia]).
  rewrite last_lookup in Hlast.
  destruct (Z.ltb_spec (Z.of_nat (length vs)) 1); [lia|].
  replace (Z.to_nat (Z.of_nat (length vs) - 1)) with (pred (length vs)) by lia.
  rewrite Hlast. reflexivity.
Qed.

(** C8.  When the registry answers a query, with versions that are
    non-empty strings, [loadHighestNPMVersionMatching] throws the
    no-matching-version error exactly when the result set is empty: on an
    empty set it throws it, and on a non-empty set it returns a version of
    the set and does not throw. *)
Theorem C8_error_iff_empty_result (host : Host) (query : string)
    (versionOrVersions : NpmViewJson) (w : World) :
  npm_view host query = Some versionOrVersions ->
  Forall (fun v => v <> EmptyString) (resultSet versionOrVersions) ->
  (resultSet versionOrVersions = [] ->
   fst (loadHighestNPMVersionMatching host query w)
   = Throws (NoMatchingVersion query)) /\
  (resultSet versionOrVersions <> [] ->
   exists v, v ∈ resultSet versionOrVersions /\
             fst (loadHighestNPMVersionMatching host query w) = Returns v).
Proof.
  intros Hview Hwf. split.
  - intros Hempty.
    unfold loadHighestNPMVersionMatching, mbind, Run_bind, emit, throw.
    rewrite Hview. destruct versionOrVersions as [v|vs]; simpl in Hempty.
    + discriminate.
    + subst vs. reflexivity.
  - intros Hne. destruct versionOrVersions as [v|vs]; simpl in *.
    + exists v. split; [repeat constructor|].
      unfold loadHighestNPMVersionMatching, mbind, Run_bind, emit, throw.
      rewrite Hview. unfold length_of.
      inversion Hwf as [|? ? Hv _]; subst.
      destruct v as [|c v]; [congruence|].
      destruct (Z.ltb_spec (Z.of_nat (String.length (String c v))) 1) as [H|H];
        [simpl in H; lia | reflexivity].
    + destruct (last vs) as [v|] eqn:Hlast.
      * exists v. split.
        -- rewrite last_lookup in Hlast. eapply list_elem_of_lookup_2, Hlast.
        -- eapply loadHighest_last; eassumption.
      * apply last_None in Hlast. congruence.
Qed.

Lemma C8_error_iff_empty_result_witness :
  exists v, v ∈ ["18.2.0"; "18.3.1"; "19.0.0"] /\
    fst (loadHighestNPMVersionMatching Sample.host
           ("react@" +:+ Sample.reactRange) Sample.world) = Returns v.
Proof.
  refine (proj2 (C8_error_iff_empty_result Sample.host
                   ("react@" +:+ Sample.reactRange)
                   (ViewArray ["18.2.0"; "18.3.1"; "19.0.0"]) Sample.world
                   eq_refl _) _).
  - repeat constructor; discriminate.
  - discriminate.
Defined.

(** On an array listed in ascending order, the last entry is a maximum:
    there the function does answer the highest version. *)
Lemma loadHighest_highest_when_ascending
    (compareVersions : string -> string -> Z) host query vs v w :
  (forall a, compareVersions a a <= 0) ->
  StronglySorted (fun a b => compareVersions a b <= 0) vs ->
  npm_view host query = Some (ViewArray vs) ->
  fst (loadHighestNPMVersionMatching host query w) = Returns v ->
  forall v', v' ∈ vs -> compareVersions v' v <= 0.
Proof.
  intros Hrefl Hsorted Hview Hret v' Hin.
  destruct (last vs) as [u|] eqn:Hlast.
  - rewrite (loadHighest_last _ _ _ _ _ Hview Hlast) in Hret.
    injection Hret as <-.
    clear Hview. revert v' Hin.
    induction Hsorted as [|x l Hs IH Hall]; intros v' Hin.
    + inversion Hin.
    + destruct l as [|y l].
      * simpl in Hlast. injection Hlast as <-.
        apply list_elem_of_singleton in Hin. subst. apply Hrefl.
      * change (last (x :: y :: l)) with (last (y :: l)) in Hlast.
        apply elem_of_cons in Hin as [->|Hin]; [|auto].
        rewrite Forall_forall in Hall. apply Hall.
        rewrite last_lookup in Hlast.
        eapply list_elem_of_lookup_2, Hlast.
  - apply last_None in Hlast. subst. inversion Hin.
Qed.

(** C7.  The function answers the last entry of the array, which is not the
    highest version when the registry lists a lower version after a higher
    one: here [18.3.12] is answered although [19.0.0] matches the same
    query. *)
Theorem C7_last_entry_not_highest :
  fst (loadHighestNPMVersionMatching
         (Sample.hostWith "13.0.0" Sample.backported (Returned true)
                          (fun _ => Returned true))
         ("@types/react@" +:+ Sample.reactRange) Sample.world)
  = Returns "18.3.12" /\
  Sample.backported ("@types/react@" +:+ Sample.reactRange)
  = Some (ViewArray ["18.3.11"; "19.0.0"; "18.3.12"]) /\
  Sample.compareVersions "18.3.12" "19.0.0" < 0.
Proof. repeat split. Qed.

(** ** Already on the target version *)

(** C6.  When the manifest is read, the revision resolves to a target
    version, and the installed version compares greater than or equal to
    it (equality included), [runUpgrade] returns at the already-current
    exit; the files are untouched and the run consists of the registry
    request and two printed lines: nothing is written, installed, asked or
    transformed. *)
Theorem C6_already_current
    (compareVersions : string -> string -> Z)
    (catalog : list VersionCodemods) (host : Host)
    (revision : option string) (verbose : bool) (w : World)
    (text : string) (appPackageJson : PackageJson) (res : Response)
    (target installed : string) (peerDependencies : gmap string string) :
  files w !! (cwd host +:+ "/package.json") = Some text ->
  JSON_parse host text = Some appPackageJson ->
  fetch host ("https://registry.npmjs.org/next/" +:+ JS.template revision)
  = Some res ->
  status res = 200 ->
  json res = Some (BodyObject (Some target) (Some peerDependencies)) ->
  installedNext host = Some installed ->
  compareVersions installed target >= 0 ->
  runUpgrade compareVersions catalog host revision verbose w =
  (Returns ReturnAlreadyCurrent,
   mkWorld (files w)
     (trace w ++
      [ EvFetch ("https://registry.npmjs.org/next/" +:+ JS.template revision);
        EvLog (CurrentVersion installed);
        EvLog (AlreadyOnTarget target) ])).
Proof.
  intros Hfile Hparse Hfetch Hstatus Hjson Hinstalled Hcmp.
  unfold runUpgrade, readPackageJson, getInstalledNextVersion, console_log,
    mbind, Run_bind, emit, throw, mret, Run_ret.
  rewrite Hfile. simpl. rewrite Hparse. simpl.
  rewrite Hfetch, Hstatus. simpl. rewrite Hjson, Hinstalled. simpl.
  destruct (Z.geb_spec (compareVersions installed target) 0); [|lia].
  simpl. rewrite <- !app_assoc. reflexivity.
Qed.

Lemma C6_already_current_witness :
  runUpgrade Sample.compareVersions Sample.catalog
    (Sample.hostWith "15.0.0" Sample.published (Returned true)
                     (fun _ => Returned true))
    (Some "15.0.0") false Sample.world =
  (Returns ReturnAlreadyCurrent,
   mkWorld Sample.disk
     [ EvFetch "https://registry.npmjs.org/next/15.0.0";
       EvLog (CurrentVersion "15.0.0");
       EvLog (AlreadyOnTarget "15.0.0") ]).
Proof.
  apply (C6_already_current Sample.compareVersions Sample.catalog
           (Sample.hostWith "15.0.0" Sample.published (Returned true)
                            (fun _ => Returned true))
           (Some "15.0.0") false Sample.world "next dev"
           (mkPackageJson (Some {[ "dev" := "next dev" ]}) EmptyString)
           (mkResponse 200
              (Some (BodyObject (Some "15.0.0")
                                (Some {[ "react" := Sample.reactRange ]}))))
           "15.0.0" "15.0.0" {[ "react" := Sample.reactRange ]});
    try reflexivity.
  vm_compute. discriminate.
Defined.

(** ** Runs *)

Lemma bind_run {A B : Type} (m : Run A) (f : A -> Run B) (w : World) :
  (m ≫= f) w =
  match m w with
  | (Returns a, w1) => f a w1
  | (Throws e, w1) => (Throws e, w1)
  end.
Proof. reflexivity. Qed.

Lemma ret_run {A : Type} (a : A) (w : World) :
  (mret a : Run A) w = (Returns a, w).
Proof. reflexivity. Qed.

Lemma throw_run {A : Type} (e : Error) (w : World) :
  @throw A e w = (Throws e, w).
Proof. reflexivity. Qed.

Lemma grows_refl w : grows w w [].
Proof. split; [reflexivity | symmetry; apply app_nil_r]. Qed.

Lemma grows_trans w w1 w2 evs1 evs2 :
  grows w w1 evs1 -> grows w1 w2 evs2 -> grows w w2 (evs1 ++ evs2).
Proof.
  intros [Hf1 Ht1] [Hf2 Ht2]. split; [congruence|].
  rewrite Ht2, Ht1, app_assoc. reflexivity.
Qed.

Lemma grows_emit w e : grows w (mkWorld (files w) (trace w ++ [e])) [e].
Proof. split; reflexivity. Qed.

(** Chat shows in none of the projections of a trace. *)
Lemma chat_silent evs :
  Forall chat evs ->
  transformsOf evs = [] /\ queriesOf evs = [] /\ offered evs = [] /\
  installsOf evs = [] /\ writesOf evs = [].
Proof.
  induction 1 as [|e evs He _ IH]; [repeat split|].
  destruct IH as (? & ? & ? & ? & ?).
  destruct e as [| | |[| |]| | |]; simpl in He; try contradiction;
    repeat split; assumption.
Qed.

(** A run of transforms shows as such, and in no other projection. *)
Lemma transforms_shown (cs : list string) dir force verbose :
  let evs := map (fun c => EvTransform c dir force verbose) cs in
  transformsOf evs = cs /\ queriesOf evs = [] /\ offered evs = [] /\
  installsOf evs = [] /\ writesOf evs = [].
Proof.
  induction cs as [|c cs IH]; [repeat split|].
  destruct IH as (E & ? & ? & ? & ?). simpl.
  repeat split; try assumption.
  unfold transformsOf in *. simpl. f_equal. exact E.
Qed.

Lemma console_log_run line w :
  console_log line w
  = (Returns tt, mkWorld (files w) (trace w ++ [EvLog line])).
Proof. reflexivity. Qed.

Lemma call_run e o err w :
  call e o err w
  = (match o with Returned _ => Returns tt | Threw => Throws err end,
     mkWorld (files w) (trace w ++ [e])).
Proof. unfold call. rewrite bind_run. destruct o; reflexivity. Qed.

(** The [react] query starts with the package name. *)
Lemma react_query_prefix R : JS.startsWith ("react@" +:+ R) "react@" = true.
Proof. unfold JS.startsWith. simpl. destruct R; reflexivity. Qed.

Section Stages.

Variable compareVersions : string -> string -> Z.
Variable catalog : list VersionCodemods.
Variable host : Host.

Lemma loadHighest_grows query w r w' :
  loadHighestNPMVersionMatching host query w = (r, w') ->
  grows w w' [EvNpmView query].
Proof.
  intros H. pose proof (loadHighest_world host query w) as Hw.
  rewrite H in Hw. simpl in Hw. subst w'. apply grows_emit.
Qed.

(** The only exceptions of the function: the query itself failed, or it
    matched nothing. *)
Lemma loadHighest_throws query w e :
  fst (loadHighestNPMVersionMatching host query w) = Throws e ->
  e = NpmViewFailed query \/ e = NoMatchingVersion query.
Proof.
  unfold loadHighestNPMVersionMatching, mbind, Run_bind, emit, throw, mret,
    Run_ret.
  destruct (npm_view host query) as [j|]; simpl; [|intros [= <-]; auto].
  destruct (Z.ltb_spec (length_of j) 1) as [Hlt|Hge]; simpl;
    [intros [= <-]; auto|].
  destruct j as [v|vs]; simpl; [discriminate|].
  simpl in Hge.
  destruct (lookup_lt_is_Some_2 vs (Z.to_nat (Z.of_nat (length vs) - 1)))
    as [v Hv]; [lia|].
  rewrite Hv. discriminate.
Qed.

Lemma suggestTurbopack_inv packageJson w r w' :
  suggestTurbopack host packageJson w = (r, w') ->
  exists evs, grows w w' evs /\ Forall chat evs /\
    match r with
    | Returns _ => True
    | Throws e => e = TypeError \/ e = Cancelled
    end.
Proof.
  unfold suggestTurbopack, prompts_enable, prompts_customDevScript,
    console_log, mbind, Run_bind, emit, throw, mret, Run_ret.
  destruct (scripts packageJson) as [sc|];
    [|intros [= <- <-]; exists []; auto using grows_refl].
  destruct (sc !! "dev") as [devScript|];
    [|intros [= <- <-]; exists []; auto using grows_refl].
  destruct (JS.includes devScript "--turbo");
    [intros [= <- <-]; exists []; auto using grows_refl|].
  destruct (answer_enable host true) as [[|]|]; simpl.
  - destruct (JS.includes devScript "next dev"); simpl.
    + intros [= <- <-]. exists [EvPrompt (AskEnable true)].
      split; [apply grows_emit|]. split; [repeat constructor | exact I].
    + destruct (answer_customDevScript host devScript); intros [= <- <-];
        exists [EvPrompt (AskEnable true); EvLog CouldNotFindNextDev;
                EvPrompt (AskCustomDevScript devScript)];
        (split; [split; [reflexivity | simpl; rewrite <- !app_assoc; reflexivity]|]);
        (split; [repeat constructor | auto]).
  - intros [= <- <-]. exists [EvPrompt (AskEnable true)].
    split; [apply grows_emit|]. split; [repeat constructor | exact I].
  - intros [= <- <-]. exists [EvPrompt (AskEnable true)].
    split; [apply grows_emit|]. split; [repeat constructor | auto].
Qed.

Lemma suggestCodemods_inv installed target w r w' :
  suggestCodemods compareVersions catalog host installed target w = (r, w') ->
  let relevant := relevantCodemods compareVersions catalog installed target in
  (relevant = [] /\ w' = w /\ r = Returns []) \/
  (relevant <> [] /\
   grows w w' [EvPrompt (AskCodemods (map toChoice (rev relevant)))] /\
   r = match answer_codemods host (map toChoice (rev relevant)) with
       | Some codemods => Returns codemods
       | None => Throws Cancelled
       end).
Proof.
  unfold suggestCodemods, prompts_codemods, mbind, Run_bind, emit, throw,
    mret, Run_ret.
  destruct (relevantCodemods compareVersions catalog installed target)
    as [|vc relevant] eqn:E; simpl.
  - intros [= <- <-]. left. auto.
  - intros H. right. split; [discriminate|].
    destruct (answer_codemods host _); injection H as <- <-;
      (split; [apply grows_emit | reflexivity]).
Qed.

Lemma reactDependencies_inv V R w r w' :
  reactDependencies host V R w = (r, w') ->
  (isReact19Prerelease V = true /\ w' = w /\
   r = Returns [ "react@" +:+ V; "react-dom@" +:+ V;
                 "@types/react@npm:types-react@rc";
                 "@types/react-dom@npm:types-react-dom@rc" ]) \/
  (isReact19Prerelease V = false /\
   grows w w' [ EvNpmView ("@types/react@" +:+ R);
                EvNpmView ("@types/react-dom@" +:+ R) ] /\
   match r with
   | Returns deps =>
       exists v1 v2,
         (forall w0, fst (loadHighestNPMVersionMatching host
                            ("@types/react@" +:+ R) w0) = Returns v1) /\
         (forall w0, fst (loadHighestNPMVersionMatching host
                            ("@types/react-dom@" +:+ R) w0) = Returns v2) /\
         deps = [ "react@" +:+ V; "react-dom@" +:+ V;
                  "@types/react@" +:+ v1; "@types/react-dom@" +:+ v2 ]
   | Throws e => typesFailure e
   end).
Proof.
  unfold reactDependencies.
  destruct (isReact19Prerelease V); [intros [= <- <-]; left; auto|].
  intros H. right. split; [reflexivity|].
  rewrite bind_run in H. unfold started at 1 in H.
  destruct (loadHighestNPMVersionMatching host ("@types/react@" +:+ R) w)
    as [r1 w1] eqn:E1.
  rewrite bind_run in H. unfold started at 1 in H.
  destruct (loadHighestNPMVersionMatching host ("@types/react-dom@" +:+ R) w1)
    as [r2 w2] eqn:E2.
  pose proof (loadHighest_grows _ _ _ _ E1) as G1.
  pose proof (loadHighest_grows _ _ _ _ E2) as G2.
  pose proof (grows_trans _ _ _ _ _ G1 G2) as G. simpl in G.
  assert (fst (loadHighestNPMVersionMatching host ("@types/react@" +:+ R) w)
          = r1) as F1 by (rewrite E1; reflexivity).
  assert (fst (loadHighestNPMVersionMatching host ("@types/react-dom@" +:+ R) w1)
          = r2) as F2 by (rewrite E2; reflexivity).
  rewrite bind_run in H. unfold Promise_all2, throw, mret, Run_ret in H.
  destruct r1 as [v1|e1].
  - destruct r2 as [v2|e2]; injection H as <- <-; (split; [exact G|]).
    + exists v1, v2. repeat split.
      * intros w0. rewrite <- F1. apply loadHighest_result.
      * intros w0. rewrite <- F2. apply loadHighest_result.
    + destruct (loadHighest_throws _ _ _ F2) as [-> | ->]; reflexivity.
  - injection H as <- <-. split; [exact G|].
    destruct (loadHighest_throws _ _ _ F1) as [-> | ->]; reflexivity.
Qed.

Lemma applyCodemods_inv codemods verbose w r w' :
  applyCodemods host codemods verbose w = (r, w') ->
  exists k,
    grows w w' (map (fun c => EvTransform c (cwd host) true verbose)
                    (take k codemods)) /\
    ((r = Returns tt /\ k = length codemods /\
      Forall (fun c => runTransform host c (cwd host) true verbose <> Threw)
             codemods) \/
     (exists k' c,
        k = S k' /\ codemods !! k' = Some c /\
        runTransform host c (cwd host) true verbose = Threw /\
        r = Throws (TransformFailed c) /\
        Forall (fun c => runTransform host c (cwd host) true verbose <> Threw)
               (take k' codemods))).
Proof.
  revert w. induction codemods as [|c codemods IH]; intros w H.
  - injection H as <- <-. exists O. split; [apply grows_refl|].
    left. repeat split. constructor.
  - simpl in H. rewrite bind_run in H.
    unfold call, mbind, Run_bind, emit, throw, mret, Run_ret in H.
    destruct (runTransform host c (cwd host) true verbose) as [b|] eqn:Ec.
    + apply IH in H as (k & G & Hk).
      exists (S k). split.
      * apply (grows_trans _ _ _ [_] _ (grows_emit w _) G).
      * destruct Hk as [(-> & -> & Hall) | (k' & c' & -> & Hc' & Hthrew & -> & Hall)].
        -- left. repeat split. constructor; [congruence | exact Hall].
        -- right. exists (S k'), c'. repeat split; try assumption.
           simpl. constructor; [congruence | exact Hall].
    + injection H as <- <-. exists 1%nat. split.
      * simpl. apply grows_emit.
      * right. exists O, c. repeat split; try assumption. constructor.
Qed.

Lemma installAndTransform_inv target V R codemods verbose w r w' :
  installAndTransform host target V R codemods verbose w = (r, w') ->
  exists post,
    grows w w' post /\ offered post = [] /\ writesOf post = [] /\
    queriesOf post =
      (if isReact19Prerelease V then []
       else [ "@types/react@" +:+ R; "@types/react-dom@" +:+ R ]) /\
    (((exists e, r = Throws e /\ typesFailure e) /\
      isReact19Prerelease V = false /\
      installsOf post = [] /\ transformsOf post = []) \/
     (exists deps k,
        (if isReact19Prerelease V
         then deps = [ "react@" +:+ V; "react-dom@" +:+ V;
                       "@types/react@npm:types-react@rc";
                       "@types/react-dom@npm:types-react-dom@rc" ]
         else exists v1 v2,
             (forall w0, fst (loadHighestNPMVersionMatching host
                                ("@types/react@" +:+ R) w0) = Returns v1) /\
             (forall w0, fst (loadHighestNPMVersionMatching host
                                ("@types/react-dom@" +:+ R) w0) = Returns v2) /\
             deps = [ "react@" +:+ V; "react-dom@" +:+ V;
                      "@types/react@" +:+ v1; "@types/react-dom@" +:+ v2 ]) /\
        installsOf post = [ ("next@" +:+ target) :: deps ] /\
        transformsOf post = take k codemods /\
        match installPackages host (("next@" +:+ target) :: deps)
                (getPkgManager host (cwd host)) (negb verbose) with
        | Threw => r = Throws InstallFailed /\ k = O
        | Returned _ =>
            (r = Returns ReturnEnd /\ k = length codemods /\
             Forall (fun c => runTransform host c (cwd host) true verbose
                              <> Threw) codemods) \/
            (exists k' c,
               k = S k' /\ codemods !! k' = Some c /\
               runTransform host c (cwd host) true verbose = Threw /\
               r = Throws (TransformFailed c) /\
               Forall (fun c => runTransform host c (cwd host) true verbose
                                <> Threw) (take k' codemods))
        end)).
Proof.
  unfold installAndTransform. intros H. rewrite bind_run in H.
  destruct (reactDependencies host V R w) as [[deps|e] w1] eqn:Ed.
  2:{ (* a types query failed *)
    injection H as <- <-.
    apply reactDependencies_inv in Ed as [(_ & _ & [=]) | (Hpre & G & Hr)].
    eexists. split; [exact G|]. rewrite Hpre.
    repeat split. left. repeat split. eauto. }
  assert (exists views,
            grows w w1 views /\ offered views = [] /\ writesOf views = [] /\
            installsOf views = [] /\ transformsOf views = [] /\
            queriesOf views =
              (if isReact19Prerelease V then []
               else [ "@types/react@" +:+ R; "@types/react-dom@" +:+ R ]) /\
            (if isReact19Prerelease V
             then deps = [ "react@" +:+ V; "react-dom@" +:+ V;
                           "@types/react@npm:types-react@rc";
                           "@types/react-dom@npm:types-react-dom@rc" ]
             else exists v1 v2,
                 (forall w0, fst (loadHighestNPMVersionMatching host
                                    ("@types/react@" +:+ R) w0) = Returns v1) /\
                 (forall w0, fst (loadHighestNPMVersionMatching host
                                    ("@types/react-dom@" +:+ R) w0) = Returns v2) /\
                 deps = [ "react@" +:+ V; "react-dom@" +:+ V;
                          "@types/react@" +:+ v1; "@types/react-dom@" +:+ v2 ]))
    as (views & Gv & Vo & Vw & Vi & Vt & Vq & Hdeps).
  { apply reactDependencies_inv in Ed as [(Hpre & -> & [= ->]) | (Hpre & G & Hr)];
      rewrite Hpre.
    - exists []. repeat split. symmetry. apply app_nil_r.
    - eexists. split; [exact G|]. repeat split. exact Hr. }
  clear Ed.
  set (packages := ("next@" +:+ target) :: deps) in *.
  set (pm := getPkgManager host (cwd host)) in *.
  rewrite bind_run, console_log_run, bind_run, call_run in H.
  destruct (installPackages host packages pm (negb verbose)) as [b|] eqn:Ei.
  - (* the install returned *)
    rewrite bind_run in H.
    destruct (applyCodemods host codemods verbose _) as [[[]|e] w2] eqn:El;
      apply applyCodemods_inv in El as (k & Gl & Hk).
    + (* every transform returned *)
      destruct Hk as [(_ & -> & Hall) | (? & ? & _ & _ & _ & [=] & _)].
      rewrite firstn_all in Gl.
      destruct (transforms_shown codemods (cwd host) true verbose)
        as (T1 & T2 & T3 & T4 & T5).
      assert (exists outro, Forall chat outro /\ r = Returns ReturnEnd /\
                            grows w2 w' outro) as (outro & Hchat & -> & Go).
      { unfold console_log, mbind, Run_bind, emit, mret, Run_ret in H.
        destruct (Z.of_nat (length codemods) >? 0); injection H as <- <-.
        - exists [EvLog Blank; EvLog CodemodsApplied; EvLog ReviewChanges].
          repeat split; [repeat constructor|].
          simpl. rewrite <- !app_assoc. reflexivity.
        - exists [EvLog Blank; EvLog ReviewChanges].
          repeat split; [repeat constructor|].
          simpl. rewrite <- !app_assoc. reflexivity. }
      destruct (chat_silent _ Hchat) as (O1 & O2 & O3 & O4 & O5).
      exists (views ++ [EvLog (Upgrading target);
                        EvInstall packages pm (negb verbose)]
              ++ map (fun c => EvTransform c (cwd host) true verbose) codemods
              ++ outro).
      split.
      { apply (grows_trans _ _ _ _ _ Gv).
        apply (grows_trans _ (mkWorld (files w1)
                 ((trace w1 ++ [EvLog (Upgrading target)])
                  ++ [EvInstall packages pm (negb verbose)])) _ [_; _]).
        - split; [reflexivity|]. simpl. rewrite <- app_assoc. reflexivity.
        - apply (grows_trans _ _ _ _ _ Gl Go). }
      unfold offered, writesOf, queriesOf, installsOf, transformsOf in *.
      rewrite !omap_app. simpl.
      rewrite Vo, Vw, Vq, Vi, Vt, T1, T2, T3, T4, T5, O1, O2, O3, O4, O5.
      rewrite !app_nil_r.
      repeat split. right. exists deps, (length codemods).
      split; [exact Hdeps|]. fold packages pm.
      rewrite firstn_all, Ei. repeat split. left. auto.
    + (* a transform threw *)
      injection H as <- <-.
      destruct Hk as [([=] & _) | (k' & c & -> & Hc & Hthrew & [= ->] & Hall)].
      destruct (transforms_shown (take (S k') codemods) (cwd host) true verbose)
        as (T1 & T2 & T3 & T4 & T5).
      exists (views ++ [EvLog (Upgrading target);
                        EvInstall packages pm (negb verbose)]
              ++ map (fun c => EvTransform c (cwd host) true verbose)
                     (take (S k') codemods)).
      split.
      { apply (grows_trans _ _ _ _ _ Gv).
        apply (grows_trans _ (mkWorld (files w1)
                 ((trace w1 ++ [EvLog (Upgrading target)])
                  ++ [EvInstall packages pm (negb verbose)])) _ [_; _]).
        - split; [reflexivity|]. simpl. rewrite <- app_assoc. reflexivity.
        - exact Gl. }
      unfold offered, writesOf, queriesOf, installsOf, transformsOf in *.
      rewrite !omap_app. simpl.
      rewrite Vo, Vw, Vq, Vi, Vt, T1, T2, T3, T4, T5.
      rewrite ?app_nil_r.
      repeat split. right. exists deps, (S k').
      split; [exact Hdeps|]. fold packages pm. rewrite Ei. repeat split.
      right. exists k', c. auto.
  - (* the install threw *)
    injection H as <- <-.
    exists (views ++ [EvLog (Upgrading target);
                      EvInstall packages pm (negb verbose)]).
    split.
    { apply (grows_trans _ _ _ _ _ Gv).
      split; [reflexivity|]. simpl. rewrite <- app_assoc. reflexivity. }
    unfold offered, writesOf, queriesOf, installsOf, transformsOf in *.
    rewrite !omap_app. simpl.
    rewrite Vo, Vw, Vq, Vi, Vt. rewrite ?app_nil_r.
    repeat split. right. exists deps, O.
    split; [exact Hdeps|]. fold packages pm. rewrite Ei, take_0. auto.
Qed.

Lemma runUpgrade_inv revision verbose w r w' :
  runUpgrade compareVersions catalog host revision verbose w = (r, w') ->
  (exists evs,
     grows w w' evs /\ earlyEnd r /\
     writesOf evs = [] /\ installsOf evs = [] /\ transformsOf evs = [] /\
     (queriesOf evs = [] \/ exists R, queriesOf evs = ["react@" +:+ R]) /\
     (offered evs = [] \/
      exists installed target peers,
        resolves host revision target peers /\
        installedNext host = Some installed /\
        offered evs =
          [map toChoice
               (rev (relevantCodemods compareVersions catalog installed target))] /\
        answer_codemods host
          (map toChoice
               (rev (relevantCodemods compareVersions catalog installed target)))
        = None)) \/
  (exists installed target peers V codemods content evs,
     resolves host revision target peers /\
     installedNext host = Some installed /\
     compareVersions installed target < 0 /\
     (forall w0, fst (loadHighestNPMVersionMatching host
                        ("react@" +:+ JS.template (peers !! "react")) w0)
                 = Returns V) /\
     writesOf evs = [] /\ installsOf evs = [] /\ transformsOf evs = [] /\
     queriesOf evs = ["react@" +:+ JS.template (peers !! "react")] /\
     ((relevantCodemods compareVersions catalog installed target = [] /\
       offered evs = [] /\ codemods = []) \/
      (offered evs =
         [map toChoice
              (rev (relevantCodemods compareVersions catalog installed target))] /\
       answer_codemods host
         (map toChoice
              (rev (relevantCodemods compareVersions catalog installed target)))
       = Some codemods)) /\
     installAndTransform host target V (JS.template (peers !! "react"))
       codemods verbose
       (mkWorld (<[cwd host +:+ "/package.json" := content]> (files w))
                (trace w ++ evs ++ [EvWriteFile (cwd host +:+ "/package.json")
                                                content]))
     = (r, w')).
Proof.
  unfold runUpgrade. cbv zeta. intros H.
  set (path := cwd host +:+ "/package.json") in *.
  set (url := "https://registry.npmjs.org/next/" +:+ JS.template revision) in *.
  rewrite bind_run in H. unfold readPackageJson at 1 in H.
  destruct (files w !! path ≫= JSON_parse host) as [app|].
  2:{ injection H as <- <-. left. exists []. split; [apply grows_refl|].
      repeat split; auto. }
  rewrite bind_run in H. unfold emit at 1 in H.
  rewrite bind_run in H.
  destruct (fetch host url) as [res|] eqn:Ef.
  2:{ rewrite throw_run in H. injection H as <- <-. ended_early [EvFetch url]. }
  destruct (Z.eqb_spec (status res) 200) as [Es|Es].
  2:{ rewrite ret_run, throw_run in H. injection H as <- <-.
      ended_early [EvFetch url]. }
  destruct (json res) as [body|] eqn:Ej.
  2:{ rewrite throw_run in H. injection H as <- <-. ended_early [EvFetch url]. }
  rewrite ret_run in H.
  destruct body as [| |[target|] [peers|]];
    try (rewrite throw_run in H; injection H as <- <-;
         ended_early [EvFetch url]).
  assert (resolves host revision target peers) as Hres
    by (exists res; auto).
  rewrite bind_run in H. unfold getInstalledNextVersion at 1 in H.
  destruct (installedNext host) as [installed|] eqn:Ei.
  2:{ rewrite throw_run in H. injection H as <- <-. ended_early [EvFetch url]. }
  rewrite ret_run, bind_run, console_log_run in H.
  destruct (Z.geb_spec (compareVersions installed target) 0) as [Hge|Hlt].
  { rewrite bind_run, console_log_run, ret_run in H. injection H as <- <-.
    ended_early [EvFetch url; EvLog (CurrentVersion installed);
                 EvLog (AlreadyOnTarget target)]. }
  set (R := JS.template (peers !! "react")) in *.
  cbn [files trace] in H.
  set (w0 := mkWorld (files w) ((trace w ++ [EvFetch url])
                                ++ [EvLog (CurrentVersion installed)])) in H.
  assert (grows w w0 [EvFetch url; EvLog (CurrentVersion installed)]) as G0.
  { split; [reflexivity|]. unfold w0. simpl. rewrite <- app_assoc. reflexivity. }
  clearbody w0.
  (* the react query *)
  rewrite bind_run in H.
  destruct (loadHighestNPMVersionMatching host ("react@" +:+ R) w0)
    as [[V|e] w1] eqn:EL;
    pose proof (loadHighest_grows _ _ _ _ EL) as GL;
    pose proof (grows_trans _ _ _ _ _ G0 GL) as G1; simpl in G1.
  2:{ injection H as <- <-. left. eexists. split; [exact G1|].
      assert (fst (loadHighestNPMVersionMatching host ("react@" +:+ R) w0)
              = Throws e) as F by (rewrite EL; reflexivity).
      destruct (loadHighest_throws _ _ _ F) as [-> | ->];
        (repeat split;
         [apply react_query_prefix | right; exists R; reflexivity
         | left; reflexivity]). }
  assert (forall w2, fst (loadHighestNPMVersionMatching host ("react@" +:+ R) w2)
                     = Returns V) as HV.
  { intros w2. rewrite (loadHighest_result host _ w2 w0), EL. reflexivity. }
  clear EL GL G0.
  (* Turbopack *)
  rewrite bind_run in H.
  destruct ((if compareVersions target "15.0.0-canary" >=? 0
             then suggestTurbopack host app else mret app) w1)
    as [[app'|e] w2] eqn:ET.
  2:{ injection H as <- <-.
      destruct (compareVersions target "15.0.0-canary" >=? 0);
        [|discriminate].
      apply suggestTurbopack_inv in ET as (evsT & GT & Hchat & He).
      destruct (chat_silent _ Hchat) as (T1 & T2 & T3 & T4 & T5).
      left. eexists. split; [exact (grows_trans _ _ _ _ _ G1 GT)|].
      unfold offered, writesOf, queriesOf, installsOf, transformsOf in *.
      rewrite !omap_app, T1, T2, T3, T4, T5. simpl.
      destruct He as [-> | ->]; repeat split; eauto. }
  assert (exists evsT, grows w1 w2 evsT /\ Forall chat evsT)
    as (evsT & GT & Hchat).
  { destruct (compareVersions target "15.0.0-canary" >=? 0).
    - apply suggestTurbopack_inv in ET as (evsT & GT & Hchat & _). eauto.
    - injection ET as _ <-. exists []. split; [apply grows_refl | constructor]. }
  clear ET.
  destruct (chat_silent _ Hchat) as (T1 & T2 & T3 & T4 & T5).
  pose proof (grows_trans _ _ _ _ _ G1 GT) as G2. clear G1 GT.
  (* the codemods *)
  rewrite bind_run in H.
  destruct (suggestCodemods compareVersions catalog host installed target w2)
    as [[codemods|e] w3] eqn:ES;
    apply suggestCodemods_inv in ES
      as [(Hrel & -> & [= E]) | (Hrel & GS & E)].
  - (* nothing to offer *)
    subst codemods.
    rewrite bind_run in H. unfold writeFileSync at 1 in H.
    destruct G2 as [Gf Gt]. rewrite Gf, Gt in H.
    right. exists installed, target, peers, V, [],
             (JSON_stringify host app'),
             ([EvFetch url; EvLog (CurrentVersion installed);
               EvNpmView ("react@" +:+ R)] ++ evsT).
    fold R.
    unfold offered, writesOf, queriesOf, installsOf, transformsOf in *.
    rewrite !omap_app, T1, T2, T3, T4, T5. simpl.
    repeat split; auto; try lia.
    rewrite <- H. f_equal. f_equal. rewrite <- !app_assoc. reflexivity.
  - (* the user answered *)
    destruct (answer_codemods host _) as [sel|] eqn:Ea; [|discriminate].
    injection E as ->.
    rewrite bind_run in H. unfold writeFileSync at 1 in H.
    destruct (grows_trans _ _ _ _ _ G2 GS) as [Gf Gt]. rewrite Gf, Gt in H.
    right. exists installed, target, peers, V, sel,
             (JSON_stringify host app'),
             (([EvFetch url; EvLog (CurrentVersion installed);
                EvNpmView ("react@" +:+ R)] ++ evsT)
              ++ [EvPrompt (AskCodemods
                    (map toChoice
                       (rev (relevantCodemods compareVersions catalog
                               installed target))))]).
    fold R.
    unfold offered, writesOf, queriesOf, installsOf, transformsOf in *.
    rewrite !omap_app, T1, T2, T3, T4, T5. simpl.
    repeat split; auto; try lia.
    rewrite <- H. f_equal. f_equal. rewrite <- !app_assoc. reflexivity.
  - (* the user cancelled *)
    injection H as <- <-.
    destruct (answer_codemods host _) as [sel|] eqn:Ea; [discriminate|].
    injection E as ->.
    left. eexists. split; [exact (grows_trans _ _ _ _ _ G2 GS)|].
    unfold offered, writesOf, queriesOf, installsOf, transformsOf in *.
    rewrite !omap_app, T1, T2, T3, T4, T5. simpl.
    repeat split; eauto.
    right. exists installed, target, peers. auto.
Qed.

(** Every run of [runUpgrade]: either it ends before the manifest is
    written, or it writes the manifest once and goes on to the types
    queries, the install and the transforms. *)
Lemma runUpgrade_shape revision verbose w r w' :
  runUpgrade compareVersions catalog host revision verbose w = (r, w') ->
  exists evs,
    trace w' = trace w ++ evs /\
    ((files w' = files w /\ earlyEnd r /\
      writesOf evs = [] /\ installsOf evs = [] /\ transformsOf evs = [] /\
      (queriesOf evs = [] \/ exists R, queriesOf evs = ["react@" +:+ R]) /\
      (offered evs = [] \/
       exists installed target peers,
         resolves host revision target peers /\
         installedNext host = Some installed /\
         offered evs =
           [map toChoice
                (rev (relevantCodemods compareVersions catalog
                        installed target))] /\
         selected host evs = [])) \/
     (exists installed target peers V codemods content,
        let R := JS.template (peers !! "react") in
        let relevant :=
          relevantCodemods compareVersions catalog installed target in
        resolves host revision target peers /\
        installedNext host = Some installed /\
        compareVersions installed target < 0 /\
        (forall w0, fst (loadHighestNPMVersionMatching host
                           ("react@" +:+ R) w0) = Returns V) /\
        files w' = <[cwd host +:+ "/package.json" := content]> (files w) /\
        writesOf evs = [(cwd host +:+ "/package.json", content)] /\
        selected host evs = codemods /\
        ((relevant = [] /\ offered evs = []) \/
         offered evs = [map toChoice (rev relevant)]) /\
        queriesOf evs =
          ("react@" +:+ R) ::
          (if isReact19Prerelease V then []
           else [ "@types/react@" +:+ R; "@types/react-dom@" +:+ R ]) /\
        (((exists e, r = Throws e /\ typesFailure e) /\
          isReact19Prerelease V = false /\
          installsOf evs = [] /\ transformsOf evs = []) \/
         (exists deps k,
            (if isReact19Prerelease V
             then deps = [ "react@" +:+ V; "react-dom@" +:+ V;
                           "@types/react@npm:types-react@rc";
                           "@types/react-dom@npm:types-react-dom@rc" ]
             else exists v1 v2,
                 (forall w0, fst (loadHighestNPMVersionMatching host
                                    ("@types/react@" +:+ R) w0)
                             = Returns v1) /\
                 (forall w0, fst (loadHighestNPMVersionMatching host
                                    ("@types/react-dom@" +:+ R) w0)
                             = Returns v2) /\
                 deps = [ "react@" +:+ V; "react-dom@" +:+ V;
                          "@types/react@" +:+ v1;
                          "@types/react-dom@" +:+ v2 ]) /\
            installsOf evs = [ ("next@" +:+ target) :: deps ] /\
            transformsOf evs = take k codemods /\
            match installPackages host (("next@" +:+ target) :: deps)
                    (getPkgManager host (cwd host)) (negb verbose) with
            | Threw => r = Throws InstallFailed /\ k = O
            | Returned _ =>
                (r = Returns ReturnEnd /\ k = length codemods /\
                 Forall (fun c => runTransform host c (cwd host) true verbose
                                  <> Threw) codemods) \/
                (exists k' c,
                   k = S k' /\ codemods !! k' = Some c /\
                   runTransform host c (cwd host) true verbose = Threw /\
                   r = Throws (TransformFailed c) /\
                   Forall (fun c => runTransform host c (cwd host) true
                                      verbose <> Threw) (take k' codemods))
            end)))).
Proof.
  intros H. apply runUpgrade_inv in H
    as [(evs & [Gf Gt] & Hend & Hw & Hi & Ht & Hq & Ho)
       | (installed & target & peers & V & codemods & content & pre & Hres
          & Hinst & Hlt & HV & Pw & Pi & Pt & Pq & Psel & H)].
  - exists evs. split; [exact Gt|]. left. repeat split; try assumption.
    destruct Ho as [Ho | (i & t & p & ? & ? & Ho & Hans)]; [left; exact Ho|].
    right. exists i, t, p. repeat split; try assumption.
    unfold selected. rewrite Ho, Hans. reflexivity.
  - apply installAndTransform_inv in H
      as (post & [Gf Gt] & Qo & Qw & Qq & Hpost).
    simpl in Gf, Gt.
    exists (pre ++ [EvWriteFile (cwd host +:+ "/package.json") content] ++ post).
    split; [rewrite Gt, <- !app_assoc; reflexivity|].
    right. exists installed, target, peers, V, codemods, content.
    cbv zeta.
    assert (offered (pre ++ [EvWriteFile (cwd host +:+ "/package.json") content]
                     ++ post) = offered pre) as Eo.
    { unfold offered in *. rewrite !omap_app, Qo. simpl. apply app_nil_r. }
    unfold selected. rewrite Eo.
    unfold writesOf, queriesOf, installsOf, transformsOf in *.
    rewrite !omap_app, Pw, Pi, Pt, Pq, Qw, Qq. simpl.
    repeat split; try assumption.
    + destruct Psel as [(_ & -> & ->) | (-> & ->)]; reflexivity.
    + destruct Psel as [(? & ? & _) | (? & _)]; auto.
Qed.

End Stages.

(** ** Order of presentation and of application *)

Lemma sublist_rev {A : Type} (l1 l2 : list A) :
  l1 `sublist_of` l2 -> rev l1 `sublist_of` rev l2.
Proof.
  induction 1 as [|x l1 l2 _ IH|x l1 l2 _ IH]; simpl.
  - constructor.
  - apply sublist_app; [exact IH | reflexivity].
  - apply sublist_inserts_r. exact IH.
Qed.

Lemma sublist_map {A B : Type} (f : A -> B) (l1 l2 : list A) :
  l1 `sublist_of` l2 -> map f l1 `sublist_of` map f l2.
Proof. induction 1; simpl; constructor; assumption. Qed.

Lemma prefix_is_sublist {A : Type} (l1 l2 : list A) :
  l1 `prefix_of` l2 -> l1 `sublist_of` l2.
Proof. intros [k ->]. apply sublist_inserts_r. reflexivity. Qed.

Lemma slice_sublist {A : Type} (i j : Z) (l : list A) :
  JS.slice i j l `sublist_of` l.
Proof.
  unfold JS.slice. etransitivity; [apply sublist_take | apply sublist_drop].
Qed.

(** The relevant codemods are a run of consecutive catalog entries. *)
Lemma relevantCodemods_sublist compareVersions catalog installed target :
  relevantCodemods compareVersions catalog installed target
  `sublist_of` catalog.
Proof.
  unfold relevantCodemods.
  destruct (_ =? -1); [apply sublist_nil_l | apply slice_sublist].
Qed.

Lemma choice_values (l : list VersionCodemods) :
  map choice_value (map toChoice l) = map value l.
Proof. rewrite map_map. reflexivity. Qed.

(** Whatever a run offers is offered newest first: the values offered are
    those of the relevant catalog entries in the reverse of catalog order.
    The transforms applied are, in order, a prefix of the answer to the
    prompt, and the whole answer when the run reaches its end.  When the
    answer to the prompt keeps the order of the choices, the codemods are
    therefore applied in the reverse of catalog order. *)
Lemma runUpgrade_applies_the_selection
    (compareVersions : string -> string -> Z)
    (catalog : list VersionCodemods) (host : Host)
    (revision : option string) (verbose : bool)
    (w : World) (r : Completion ReturnPoint) (w' : World) :
  runUpgrade compareVersions catalog host revision verbose w = (r, w') ->
  exists evs,
    trace w' = trace w ++ evs /\
    (forall cs, cs ∈ offered evs ->
       exists installed target peers,
         installedNext host = Some installed /\
         resolves host revision target peers /\
         map choice_value cs =
           rev (map value
                  (relevantCodemods compareVersions catalog installed target)) /\
         map choice_value cs `sublist_of` rev (map value catalog)) /\
    transformsOf evs `prefix_of` selected host evs /\
    (r = Returns ReturnEnd -> transformsOf evs = selected host evs) /\
    ((forall cs sel, answer_codemods host cs = Some sel ->
                     sel `sublist_of` map choice_value cs) ->
     transformsOf evs `sublist_of` rev (map value catalog)).
Proof.
  intros H.
  apply runUpgrade_shape in H as (evs & Ht & Hshape).
  exists evs. split; [exact Ht|].
  assert (forall installed target,
            map choice_value
              (map toChoice
                 (rev (relevantCodemods compareVersions catalog installed target)))
            = rev (map value
                     (relevantCodemods compareVersions catalog installed target))
            /\
            map choice_value
              (map toChoice
                 (rev (relevantCodemods compareVersions catalog installed target)))
            `sublist_of` rev (map value catalog)) as Hcs.
  { intros installed target. rewrite choice_values, map_rev.
    split; [reflexivity|].
    apply sublist_rev, sublist_map, relevantCodemods_sublist. }
  assert (forall cs, cs ∈ offered evs ->
            exists installed target peers,
              installedNext host = Some installed /\
              resolves host revision target peers /\
              map choice_value cs =
                rev (map value
                       (relevantCodemods compareVersions catalog installed
                          target)) /\
              map choice_value cs `sublist_of` rev (map value catalog))
    as Hoffered.
  { intros cs Hin.
    destruct Hshape
      as [(_ & _ & _ & _ & _ & _ & [Ho | (i & t & p & Hres & Hi & Ho & _)])
         | (i & t & p & V & codemods & content & Hres & Hi & _ & _ & _ & _
            & _ & [(_ & Ho) | Ho] & _)];
      rewrite Ho in Hin; try (inversion Hin; fail);
      apply list_elem_of_singleton in Hin; subst cs;
      exists i, t, p; destruct (Hcs i t); auto. }
  assert (transformsOf evs `prefix_of` selected host evs /\
          (r = Returns ReturnEnd -> transformsOf evs = selected host evs))
    as [Hprefix Hend].
  { destruct Hshape
      as [(_ & Hearly & _ & _ & -> & _)
         | (i & t & p & V & codemods & content & _ & _ & _ & _ & _ & _
            & -> & _ & _ & [(He & _ & _ & ->) | (deps & k & _ & _ & -> & Hk)])].
    - split; [apply prefix_nil|]. intros ->. discriminate Hearly.
    - split; [apply prefix_nil|]. intros ->.
      destruct He as (e & [=] & _).
    - split; [apply prefix_take|]. intros ->.
      destruct (installPackages host _ _ _).
      + destruct Hk as [(_ & -> & _) | (? & ? & _ & _ & _ & [=] & _)].
        apply firstn_all.
      + destruct Hk as [[=] _]. }
  repeat split; try assumption.
  intros Hanswer.
  etransitivity; [apply prefix_is_sublist, Hprefix|].
  unfold selected. destruct (offered evs) as [|cs rest];
    [apply sublist_nil_l|].
  destruct (answer_codemods host cs) as [sel|] eqn:Ea;
    [|apply sublist_nil_l].
  simpl. etransitivity; [exact (Hanswer _ _ Ea)|].
  destruct (Hoffered cs) as (? & ? & ? & _ & _ & _ & Hsub);
    [constructor | exact Hsub].
Qed.

(** On the sample catalog, an upgrade from 13.0.0 to 15.0.0 offers [B]
    (15.0.0) before [A] (14.0.0) and applies them in that order, which is
    not the order of the catalog. *)
Lemma C1_counterexample :
  let evs := trace (snd (Sample.run Sample.host "15.0.0")) in
  map (map choice_value) (offered evs) = [["B"; "A"]] /\
  transformsOf evs = ["B"; "A"] /\
  map value Sample.catalog = ["A"; "B"; "C"] /\
  ~ (transformsOf evs `sublist_of` map value Sample.catalog) /\
  Sample.compareVersions (version Sample.A) (version Sample.B) < 0.
Proof.
  cbv zeta.
  assert (transformsOf (trace (snd (Sample.run Sample.host "15.0.0")))
          = ["B"; "A"]) as E by (vm_compute; reflexivity).
  rewrite E.
  repeat split; try (vm_compute; reflexivity).
  change (map value Sample.catalog) with ["A"; "B"; "C"].
  intros H.
  repeat match goal with
         | H : sublist _ _ |- _ => inversion H; clear H; subst
         end; discriminate.
Qed.

(** ** Failures and the manifest *)

Lemma react_not_types q :
  JS.startsWith q "react@" = true -> JS.startsWith q "@types/" = true -> False.
Proof.
  unfold JS.startsWith. destruct q as [|c q]; [discriminate|].
  change (String.prefix "react@" (String c q))
    with (if ascii_dec "r" c then String.prefix "eact@" q else false).
  change (String.prefix "@types/" (String c q))
    with (if ascii_dec "@" c then String.prefix "types/" q else false).
  destruct (ascii_dec "r" c) as [<-|]; [|discriminate].
  intros _.
  destruct (ascii_dec "@" "r") as [E|]; [discriminate E | discriminate].
Qed.

(** A failure of the revision, of the detection of the installed version
    or of the [react] query ends the run before the manifest is written:
    the files are unchanged.  A failure of the [@types/react] or
    [@types/react-dom] query is raised after the one write of the
    manifest. *)
Lemma runUpgrade_failure_and_write
    (compareVersions : string -> string -> Z)
    (catalog : list VersionCodemods) (host : Host)
    (revision : option string) (verbose : bool)
    (w : World) (e : Error) (w' : World) :
  runUpgrade compareVersions catalog host revision verbose w
  = (Throws e, w') ->
  (resolutionFailure e ->
   files w' = files w /\
   exists evs, trace w' = trace w ++ evs /\ writesOf evs = []) /\
  (typesFailure e ->
   exists evs content,
     trace w' = trace w ++ evs /\
     writesOf evs = [(cwd host +:+ "/package.json", content)] /\
     files w' = <[cwd host +:+ "/package.json" := content]> (files w)).
Proof.
  intros H.
  apply runUpgrade_shape in H as (evs & Ht & Hshape).
  destruct Hshape
    as [(Hf & Hearly & Hw & _)
       | (i & t & p & V & codemods & content & _ & _ & _ & _ & Hf & Hw
          & _ & _ & _ & [((e' & [= <-] & Hty) & _) | (deps & k & _ & _ & _ & Hk)])].
  - split.
    + intros _. split; [exact Hf|]. exists evs. auto.
    + intros Hty. exfalso.
      destruct e; simpl in Hty, Hearly; try contradiction;
        eapply react_not_types; eassumption.
  - split.
    + intros Hres. exfalso.
      destruct e; simpl in Hty, Hres; try contradiction;
        eapply react_not_types; eassumption.
    + intros _. exists evs, content. auto.
  - destruct (installPackages host _ _ _).
    + destruct Hk as [([=] & _) | (k' & c & _ & _ & _ & [= ->] & _)].
      split; intros [].
    + destruct Hk as [[= ->] _]. split; intros [].
Qed.

(** With no version of [@types/react] in the range, the run ends with the
    no-matching-version error of that query, and [package.json] has been
    rewritten: its dev script now enables Turbopack. *)
Lemma C2_counterexample :
  let h := Sample.hostWith "13.0.0" Sample.untyped (Returned true)
                           (fun _ => Returned true) in
  fst (Sample.run h "15.0.0")
  = Throws (NoMatchingVersion ("@types/react@" +:+ Sample.reactRange)) /\
  files Sample.world !! "/app/package.json" = Some "next dev" /\
  files (snd (Sample.run h "15.0.0")) !! "/app/package.json"
  = Some "next dev --turbo" /\
  files (snd (Sample.run h "15.0.0")) <> files Sample.world.
Proof.
  cbv zeta.
  assert (files (snd (Sample.run
                        (Sample.hostWith "13.0.0" Sample.untyped (Returned true)
                                         (fun _ => Returned true)) "15.0.0"))
          !! "/app/package.json" = Some "next dev --turbo") as E
    by (vm_compute; reflexivity).
  repeat split; try (vm_compute; reflexivity).
  intros Heq. rewrite Heq in E. vm_compute in E. discriminate.
Qed.

(** ** The codemod loop *)

(** C4, as the code has it.  Once the install call has returned, the
    transforms are invoked one after another in the order of the
    selection, starting with the first selected codemod.  A transform that
    returns, whatever it reports, is followed by the next selected codemod,
    and the run reaches its end once the last one has returned: a run that
    reaches its end has transformed the whole selection, in order.  A
    transform that throws ends the run with its error: it is the last
    transform invoked. *)
Theorem C4_transforms_until_one_throws
    (compareVersions : string -> string -> Z)
    (catalog : list VersionCodemods) (host : Host)
    (revision : option string) (verbose : bool)
    (w : World) (r : Completion ReturnPoint) (w' : World) :
  runUpgrade compareVersions catalog host revision verbose w = (r, w') ->
  exists evs,
    trace w' = trace w ++ evs /\
    transformsOf evs `prefix_of` selected host evs /\
    (forall packages b, packages ∈ installsOf evs ->
       installPackages host packages (getPkgManager host (cwd host))
                       (negb verbose) = Returned b ->
       forall c, head (selected host evs) = Some c ->
                 head (transformsOf evs) = Some c) /\
    (r = Returns ReturnEnd -> transformsOf evs = selected host evs) /\
    (forall k c, transformsOf evs !! k = Some c ->
       runTransform host c (cwd host) true verbose = Threw ->
       r = Throws (TransformFailed c) /\ length (transformsOf evs) = S k) /\
    (forall k c b, transformsOf evs !! k = Some c ->
       runTransform host c (cwd host) true verbose = Returned b ->
       (forall c', selected host evs !! S k = Some c' ->
                   transformsOf evs !! S k = Some c') /\
       (length (selected host evs) = S k -> r = Returns ReturnEnd)).
Proof.
  intros H.
  apply runUpgrade_shape in H as (evs & Ht & Hshape).
  exists evs. split; [exact Ht|].
  destruct Hshape
    as [(_ & Hearly & _ & Hi & -> & _)
       | (i & t & p & V & codemods & content & _ & _ & _ & _ & _ & _
          & -> & _ & _
          & [((e & -> & _) & _ & Hi & ->) | (deps & k0 & _ & Hi & -> & Hk)])];
    rewrite Hi.
  - (* the run ended before the write *)
    split; [apply prefix_nil|].
    split; [intros ? ? Hin; inversion Hin|].
    split; [intros ->; discriminate Hearly|].
    split; intros ? ? ?; discriminate.
  - (* a types query failed *)
    split; [apply prefix_nil|].
    split; [intros ? ? Hin; inversion Hin|].
    split; [intros [=]|].
    split; intros ? ? ?; discriminate.
  - split; [apply prefix_take|].
    destruct (installPackages host _ _ _) as [b0|] eqn:Ei.
    2:{ (* the install threw *)
      destruct Hk as [-> ->]. rewrite take_0.
      split.
      { intros packages b Hin Hb. apply list_elem_of_singleton in Hin.
        subst packages. congruence. }
      split; [intros [=]|].
      split; intros ? ? ?; discriminate. }
    destruct Hk
      as [(-> & -> & Hall) | (k' & c0 & -> & Hc0 & Hthrew & -> & Hall)].
    + (* every transform returned *)
      rewrite firstn_all.
      split; [auto|]. split; [reflexivity|]. split.
      * intros k c Hk Hc. exfalso.
        exact (Forall_lookup_1 _ _ _ _ Hall Hk Hc).
      * intros k c b Hk Hc. split; [auto|reflexivity].
    + (* the transform at [k'] threw *)
      pose proof (lookup_lt_Some _ _ _ Hc0) as Hlen.
      split.
      { intros packages b _ _ c Hc. rewrite head_lookup in *.
        apply lookup_take_Some. split; [exact Hc | lia]. }
      split; [intros [=]|].
      split.
      * intros k c Hk Hc.
        apply lookup_take_Some in Hk as [Hk Hlt].
        destruct (decide (k = k')) as [->|Hne].
        -- rewrite Hc0 in Hk. injection Hk as <-.
           split; [reflexivity|]. rewrite length_take. lia.
        -- exfalso.
           assert (take k' codemods !! k = Some c) as Hk'
             by (apply lookup_take_Some; split; [exact Hk | lia]).
           exact (Forall_lookup_1 _ _ _ _ Hall Hk' Hc).
      * intros k c b Hk Hc.
        apply lookup_take_Some in Hk as [Hk Hlt].
        assert (k <> k') as Hne by (intros ->; congruence).
        split.
        -- intros c' Hc'. apply lookup_take_Some. split; [exact Hc' | lia].
        -- intros Hlast. lia.
Qed.

Lemma C4_transforms_until_one_throws_witness :
  let h := Sample.hostWith "13.0.0" Sample.published (Returned true)
                           Sample.failingOnB in
  exists evs,
    trace (snd (Sample.run h "15.0.0")) = trace Sample.world ++ evs /\
    transformsOf evs `prefix_of` selected h evs /\
    (forall packages b, packages ∈ installsOf evs ->
       installPackages h packages (getPkgManager h (cwd h)) (negb false)
       = Returned b ->
       forall c, head (selected h evs) = Some c ->
                 head (transformsOf evs) = Some c) /\
    (fst (Sample.run h "15.0.0") = Returns ReturnEnd ->
     transformsOf evs = selected h evs) /\
    (forall k c, transformsOf evs !! k = Some c ->
       runTransform h c (cwd h) true false = Threw ->
       fst (Sample.run h "15.0.0") = Throws (TransformFailed c) /\
       length (transformsOf evs) = S k) /\
    (forall k c b, transformsOf evs !! k = Some c ->
       runTransform h c (cwd h) true false = Returned b ->
       (forall c', selected h evs !! S k = Some c' ->
                   transformsOf evs !! S k = Some c') /\
       (length (selected h evs) = S k ->
        fst (Sample.run h "15.0.0") = Returns ReturnEnd)).
Proof.
  apply (C4_transforms_until_one_throws
           Sample.compareVersions Sample.catalog
           (Sample.hostWith "13.0.0" Sample.published (Returned true)
                            Sample.failingOnB)
           (Some "15.0.0") false Sample.world).
  apply surjective_pairing.
Defined.

(** When the transform of [B] throws, the run ends with its error and the
    codemod [A], selected after it, is never transformed. *)
Lemma C4_counterexample :
  let h := Sample.hostWith "13.0.0" Sample.published (Returned true)
                           Sample.failingOnB in
  let evs := trace (snd (Sample.run h "15.0.0")) in
  selected h evs = ["B"; "A"] /\
  runTransform h "B" (cwd h) true false = Threw /\
  transformsOf evs = ["B"] /\
("A" ∉ transformsOf evs) /\
  fst (Sample.run h "15.0.0") = Throws (TransformFailed "B").
Proof.
  cbv zeta.
  assert (transformsOf
            (trace (snd (Sample.run
                           (Sample.hostWith "13.0.0" Sample.published
                              (Returned true) Sample.failingOnB) "15.0.0")))
          = ["B"]) as E by (vm_compute; reflexivity).
  rewrite E.
  repeat split; try (vm_compute; reflexivity).
  intros Hin. apply list_elem_of_singleton in Hin. discriminate.
Qed.

(** ** The install step *)

(** C5, as the code has it.  When [installPackages] returns, whatever it
    reports, the codemod loop runs: the first selected codemod is
    transformed, and all of them, up to the end of the run, when no
    transform throws.  When [installPackages] throws, the run ends with
    that error, after the manifest has been written, and no codemod is
    transformed. *)
Theorem C5_install_then_codemods
    (compareVersions : string -> string -> Z)
    (catalog : list VersionCodemods) (host : Host)
    (revision : option string) (verbose : bool)
    (w : World) (r : Completion ReturnPoint) (w' : World) :
  runUpgrade compareVersions catalog host revision verbose w = (r, w') ->
  exists evs,
    trace w' = trace w ++ evs /\
    forall packages, packages ∈ installsOf evs ->
      match installPackages host packages (getPkgManager host (cwd host))
              (negb verbose) with
      | Returned _ =>
          (forall c, head (selected host evs) = Some c ->
                     head (transformsOf evs) = Some c) /\
          (Forall (fun c => runTransform host c (cwd host) true verbose
                            <> Threw) (selected host evs) ->
           transformsOf evs = selected host evs /\ r = Returns ReturnEnd)
      | Threw =>
          r = Throws InstallFailed /\ transformsOf evs = [] /\
          exists content,
            writesOf evs = [(cwd host +:+ "/package.json", content)]
      end.
Proof.
  intros H.
  apply runUpgrade_shape in H as (evs & Ht & Hshape).
  exists evs. split; [exact Ht|]. intros packages Hin.
  destruct Hshape
    as [(_ & _ & _ & Hi & _)
       | (i & t & p & V & codemods & content & _ & _ & _ & _ & _ & Hw
          & -> & _ & _ & [(_ & _ & Hi & _) | (deps & k & _ & Hi & -> & Hk)])];
    rewrite Hi in Hin; try (inversion Hin; fail).
  apply list_elem_of_singleton in Hin. subst packages.
  destruct (installPackages host _ _ _).
  - destruct Hk as [(-> & -> & Hall) | (k' & c0 & -> & Hc0 & Hthrew & -> & Hall)].
    + rewrite firstn_all. auto.
    + split.
      * intros c Hc. rewrite head_lookup in *.
        apply lookup_take_Some. split; [exact Hc | lia].
      * intros Hok. exfalso.
        exact (Forall_lookup_1 _ _ _ _ Hok Hc0 Hthrew).
  - destruct Hk as [-> ->]. rewrite take_0. eauto.
Qed.

Lemma C5_install_then_codemods_witness :
  let h := Sample.hostWith "13.0.0" Sample.published Threw
                           (fun _ => Returned true) in
  exists evs,
    trace (snd (Sample.run h "15.0.0")) = trace Sample.world ++ evs /\
    forall packages, packages ∈ installsOf evs ->
      match installPackages h packages (getPkgManager h (cwd h))
              (negb false) with
      | Returned _ =>
          (forall c, head (selected h evs) = Some c ->
                     head (transformsOf evs) = Some c) /\
          (Forall (fun c => runTransform h c (cwd h) true false <> Threw)
                  (selected h evs) ->
           transformsOf evs = selected h evs /\
           fst (Sample.run h "15.0.0") = Returns ReturnEnd)
      | Threw =>
          fst (Sample.run h "15.0.0") = Throws InstallFailed /\
          transformsOf evs = [] /\
          exists content,
            writesOf evs = [(cwd h +:+ "/package.json", content)]
      end.
Proof.
  apply (C5_install_then_codemods
           Sample.compareVersions Sample.catalog
           (Sample.hostWith "13.0.0" Sample.published Threw
                            (fun _ => Returned true))
           (Some "15.0.0") false Sample.world).
  apply surjective_pairing.
Defined.

(** When the install throws after the manifest has been written, the run
    ends with the install error and neither selected codemod is
    transformed. *)
Lemma C5_counterexample :
  let h := Sample.hostWith "13.0.0" Sample.published Threw
                           (fun _ => Returned true) in
  let evs := trace (snd (Sample.run h "15.0.0")) in
  writesOf evs = [("/app/package.json", "next dev --turbo")] /\
  installsOf evs = [[ "next@15.0.0"; "react@19.0.0"; "react-dom@19.0.0";
                      "@types/react@19.0.1"; "@types/react-dom@19.0.0" ]] /\
  selected h evs = ["B"; "A"] /\
  transformsOf evs = [] /\
  fst (Sample.run h "15.0.0") = Throws InstallFailed.
Proof. cbv zeta. repeat split; vm_compute; reflexivity. Qed.

(** ** The packages installed *)







(** The two branches on the sample registries: a release candidate of
    [react] installs the aliases without a types query, a release installs
    the versions answered for the two types queries. *)
Example release_candidate_installs_aliases :
  let evs := trace (snd (Sample.run
                           (Sample.hostWith "13.0.0" Sample.releaseCandidate
                              (Returned true) (fun _ => Returned true))
                           "15.0.0")) in
  queriesOf evs = [ "react@^18.2.0 || ^19.0.0" ] /\
  installsOf evs =
    [[ "next@15.0.0";
       "react@19.0.0-rc-66855b96-20241106";
       "react-dom@19.0.0-rc-66855b96-20241106";
       "@types/react@npm:types-react@rc";
       "@types/react-dom@npm:types-react-dom@rc" ]].
Proof. cbv zeta. split; vm_compute; reflexivity. Qed.

Example release_installs_resolved_types :
  let evs := trace (snd (Sample.run Sample.host "15.0.0")) in
  queriesOf evs = [ "react@^18.2.0 || ^19.0.0";
                    "@types/react@^18.2.0 || ^19.0.0";
                    "@types/react-dom@^18.2.0 || ^19.0.0" ] /\
  installsOf evs =
    [[ "next@15.0.0"; "react@19.0.0"; "react-dom@19.0.0";
       "@types/react@19.0.1"; "@types/react-dom@19.0.0" ]].
Proof. cbv zeta. split; vm_compute; reflexivity. Qed.

(** ** The Turbopack suggestion *)

Lemma includes_eq s x :
  JS.includes s x =
  (String.prefix x s ||
   match s with
   | EmptyString => false
   | String _ s' => JS.includes s' x
   end).
Proof. destruct s; reflexivity. Qed.

Lemma replace_eq s pattern replacement :
  JS.replace s pattern replacement =
  if String.prefix pattern s
  then replacement +:+ JS.skip (String.length pattern) s
  else match s with
       | EmptyString => EmptyString
       | String c s' => String c (JS.replace s' pattern replacement)
       end.
Proof. destruct s; reflexivity. Qed.

(** Replacing the first occurrence of a pattern brings in whatever the
    replacement includes. *)
Lemma includes_replace s pattern replacement x :
  (forall rest, JS.includes (replacement +:+ rest) x = true) ->
  JS.includes s pattern = true ->
  JS.includes (JS.replace s pattern replacement) x = true.
Proof.
  intros Hrep. induction s as [|c s IH]; intros Hin;
    rewrite replace_eq; rewrite includes_eq in Hin.
  - destruct (String.prefix pattern EmptyString); [apply Hrep | discriminate].
  - destruct (String.prefix pattern (String c s)); [apply Hrep|].
    simpl in Hin. rewrite includes_eq. rewrite (IH Hin).
    apply orb_true_r.
Qed.

Lemma turbo_included rest :
  JS.includes ("next dev --turbo" +:+ rest) "--turbo" = true.
Proof. destruct rest; reflexivity. Qed.

Section Turbopack.

Variable host : Host.

(** X1.  The function rewrites nothing but [scripts.dev]. *)
Theorem suggestTurbopack_frame packageJson packageJson' w w' :
  suggestTurbopack host packageJson w = (Returns packageJson', w') ->
  otherFields packageJson' = otherFields packageJson /\
  exists sc sc',
    scripts packageJson = Some sc /\ scripts packageJson' = Some sc' /\
    is_Some (sc !! "dev") /\ is_Some (sc' !! "dev") /\
    forall name, name <> "dev" -> sc' !! name = sc !! name.
Proof.
  unfold suggestTurbopack, prompts_enable, prompts_customDevScript,
    console_log, mbind, Run_bind, emit, throw, mret, Run_ret.
  destruct (scripts packageJson) as [sc|] eqn:Esc; [|discriminate].
  destruct (sc !! "dev") as [devScript|] eqn:Edev; [|discriminate].
  assert (forall s,
            otherFields (set_dev packageJson sc s) = otherFields packageJson /\
            exists sc0 sc',
              Some sc = Some sc0 /\
              scripts (set_dev packageJson sc s) = Some sc' /\
              is_Some (sc0 !! "dev") /\ is_Some (sc' !! "dev") /\
              forall name, name <> "dev" -> sc' !! name = sc0 !! name) as Hset.
  { intros s. split; [reflexivity|]. exists sc, (<["dev" := s]> sc).
    repeat split; eauto.
    - rewrite lookup_insert_eq. eauto.
    - intros name Hne. apply lookup_insert_ne. congruence. }
  assert (otherFields packageJson = otherFields packageJson /\
          exists sc0 sc',
            Some sc = Some sc0 /\ scripts packageJson = Some sc' /\
            is_Some (sc0 !! "dev") /\ is_Some (sc' !! "dev") /\
            forall name, name <> "dev" -> sc' !! name = sc0 !! name) as Hsame.
  { split; [reflexivity|]. exists sc, sc. rewrite Edev. repeat split; eauto. }
  destruct (JS.includes devScript "--turbo"); [intros [= <- _]; exact Hsame|].
  destruct (answer_enable host true) as [[|]|]; simpl; [| |discriminate].
  - destruct (JS.includes devScript "next dev"); simpl.
    + intros [= <- _]. apply Hset.
    + destruct (answer_customDevScript host devScript); [|discriminate].
      intros [= <- _]. apply Hset.
  - intros [= <- _]. exact Hsame.
Qed.

(** X2.  The manifest changes only with the user's consent, and a dev script
    that already passes [--turbo] is left alone without a question. *)
Theorem suggestTurbopack_consent packageJson w r w' :
  suggestTurbopack host packageJson w = (r, w') ->
  (forall packageJson', r = Returns packageJson' ->
     packageJson' <> packageJson ->
     answer_enable host true = Some true /\
     exists devScript, devScriptOf packageJson = Some devScript /\
                       JS.includes devScript "--turbo" = false) /\
  (forall devScript, devScriptOf packageJson = Some devScript ->
     JS.includes devScript "--turbo" = true ->
     r = Returns packageJson /\ w' = w).
Proof.
  unfold suggestTurbopack, devScriptOf, prompts_enable,
    prompts_customDevScript, console_log, mbind, Run_bind, emit, throw, mret,
    Run_ret, option_bind.
  destruct (scripts packageJson) as [sc|]; simpl.
  2:{ intros [= <- <-]. split; [discriminate | discriminate]. }
  destruct (sc !! "dev") as [devScript|]; simpl.
  2:{ intros [= <- <-]. split; [discriminate | discriminate]. }
  destruct (JS.includes devScript "--turbo") eqn:Eturbo.
  { intros [= <- <-]. split.
    - intros p' [= <-] Hne. congruence.
    - auto. }
  intros H. split.
  2:{ intros d [= <-]. congruence. }
  intros p' -> Hne.
  destruct (answer_enable host true) as [[|]|]; simpl in H.
  - split; [reflexivity|]. eauto.
  - injection H as <- _. congruence.
  - discriminate.
Qed.

(** X3.  Once the user has agreed and [next dev] has been replaced, the dev
    script passes [--turbo]: suggesting again asks nothing and changes
    nothing. *)
Theorem suggestTurbopack_settles packageJson sc devScript w :
  scripts packageJson = Some sc ->
  sc !! "dev" = Some devScript ->
  JS.includes devScript "--turbo" = false ->
  JS.includes devScript "next dev" = true ->
  answer_enable host true = Some true ->
  exists packageJson',
    suggestTurbopack host packageJson w =
      (Returns packageJson',
       mkWorld (files w) (trace w ++ [EvPrompt (AskEnable true)])) /\
    devScriptOf packageJson'
    = Some (JS.replace devScript "next dev" "next dev --turbo") /\
    forall w2, suggestTurbopack host packageJson' w2
               = (Returns packageJson', w2).
Proof.
  intros Hsc Hdev Hturbo Hnext Hyes.
  exists (set_dev packageJson sc
            (JS.replace devScript "next dev" "next dev --turbo")).
  split; [|split].
  - unfold suggestTurbopack, prompts_enable, mbind, Run_bind, emit, mret,
      Run_ret.
    rewrite Hsc, Hdev, Hturbo, Hyes. simpl. rewrite Hnext. reflexivity.
  - unfold devScriptOf. simpl. apply lookup_insert_eq.
  - intros w2. unfold suggestTurbopack. simpl. rewrite lookup_insert_eq.
    rewrite (includes_replace _ _ _ _ turbo_included Hnext). reflexivity.
Qed.

(** X4.  When the dev script does not call [next dev], the user is asked for
    the command; an empty entry keeps the manifest as it was. *)
Theorem suggestTurbopack_empty_entry packageJson devScript w :
  devScriptOf packageJson = Some devScript ->
  JS.includes devScript "--turbo" = false ->
  JS.includes devScript "next dev" = false ->
  answer_enable host true = Some true ->
  answer_customDevScript host devScript = Some EmptyString ->
  suggestTurbopack host packageJson w =
  (Returns packageJson,
   mkWorld (files w)
     (trace w ++ [ EvPrompt (AskEnable true); EvLog CouldNotFindNextDev;
                   EvPrompt (AskCustomDevScript devScript) ])).
Proof.
  unfold devScriptOf. intros Hdev Hturbo Hnext Hyes Hempty.
  destruct packageJson as [[sc|] other]; simpl in Hdev; [|discriminate].
  unfold suggestTurbopack, prompts_enable, prompts_customDevScript,
    console_log, mbind, Run_bind, emit, mret, Run_ret.
  simpl. rewrite Hdev, Hturbo, Hyes. simpl. rewrite Hnext. simpl.
  rewrite Hempty. simpl. unfold set_dev. simpl.
  rewrite (insert_id sc "dev" devScript Hdev), <- !app_assoc. reflexivity.
Qed.

End Turbopack.

(** ** The codemods suggested *)

Lemma slice_segment {A : Type} (i j : Z) (l : list A) :
  exists before after, l = before ++ JS.slice i j l ++ after.
Proof.
  unfold JS.slice. cbv zeta.
  match goal with
  | |- context [take ?n (drop ?k l)] =>
      exists (take k l), (drop n (drop k l));
      rewrite (take_drop n (drop k l)), take_drop
  end.
  reflexivity.
Qed.

Lemma findIndex_none {A : Type} (p : A -> bool) (l : list A) :
  Forall (fun x => p x = false) l -> JS.findIndex p l = -1.
Proof.
  induction 1 as [|x l Hx _ IH]; simpl; [reflexivity|].
  rewrite Hx, IH. reflexivity.
Qed.

Section Suggested.

Variable compareVersions : string -> string -> Z.
Variable catalog : list VersionCodemods.
Variable host : Host.

(** X5.  The relevant codemods are a run of consecutive catalog entries, in
    catalog order, whatever the comparison and the catalog. *)
Theorem relevantCodemods_segment installed target :
  exists before after,
    catalog = before
              ++ relevantCodemods compareVersions catalog installed target
              ++ after.
Proof.
  unfold relevantCodemods. destruct (_ =? -1).
  - exists [], catalog. reflexivity.
  - apply slice_segment.
Qed.

(** X6.  When no catalog entry was introduced after the installed version,
    nothing is suggested and the user is not asked. *)
Theorem suggestCodemods_nothing_newer installed target w :
  Forall (fun vc => compareVersions (version vc) installed <= 0) catalog ->
  suggestCodemods compareVersions catalog host installed target w
  = (Returns [], w).
Proof.
  intros Hall. unfold suggestCodemods, relevantCodemods.
  rewrite findIndex_none; [reflexivity|].
  eapply Forall_impl; [exact Hall|]. simpl. intros vc Hvc.
  destruct (Z.gtb_spec (compareVersions (version vc) installed) 0);
    [lia | reflexivity].
Qed.

(** X7.  On an ascending catalog, a target that does not follow the installed
    version leaves nothing to suggest, and the user is not asked. *)
Theorem suggestCodemods_not_an_upgrade installed target w :
  (forall a b c, compareVersions a b <= 0 -> compareVersions b c <= 0 ->
                 compareVersions a c <= 0) ->
  ascending compareVersions catalog ->
  compareVersions target installed <= 0 ->
  suggestCodemods compareVersions catalog host installed target w
  = (Returns [], w).
Proof.
  intros Htrans Hasc Hle. unfold suggestCodemods.
  rewrite (relevantCodemods_filter _ _ Htrans Hasc).
  rewrite filter_none; [reflexivity|].
  apply Forall_forall. intros vc _ [Hafter Hupto].
  pose proof (Htrans _ _ _ Hupto Hle). lia.
Qed.

End Suggested.

(** ** Before the upgrade starts *)

Section Entry.

Variable compareVersions : string -> string -> Z.
Variable catalog : list VersionCodemods.
Variable host : Host.

(** X8.  A manifest that is missing or cannot be parsed ends the run at once:
    the registry is not contacted and nothing else happens. *)
Theorem runUpgrade_unreadable_manifest revision verbose w :
  files w !! (cwd host +:+ "/package.json") ≫= JSON_parse host = None ->
  runUpgrade compareVersions catalog host revision verbose w
  = (Throws (ReadFailed (cwd host +:+ "/package.json")), w).
Proof.
  intros Hread. unfold runUpgrade. cbv zeta.
  rewrite bind_run. unfold readPackageJson. rewrite Hread. reflexivity.
Qed.

(** X9.  The revision is refused, right after the request and before anything
    else, whenever the registry does not answer 200 with an object holding
    both [version] and [peerDependencies]; the body of an answer that is not
    200 is not looked at. *)
Theorem runUpgrade_invalid_revision revision verbose w appPackageJson res :
  reads host w appPackageJson ->
  fetch host ("https://registry.npmjs.org/next/" +:+ JS.template revision)
  = Some res ->
  status res <> 200 \/
  (exists body, json res = Some body /\
                forall target peers,
                  body <> BodyObject (Some target) (Some peers)) ->
  runUpgrade compareVersions catalog host revision verbose w
  = (Throws (InvalidRevision revision),
     mkWorld (files w)
       (trace w ++ [ EvFetch ("https://registry.npmjs.org/next/"
                              +:+ JS.template revision) ])).
Proof.
  intros (text & Hfile & Hparse) Hfetch Hbad.
  unfold runUpgrade. cbv zeta.
  rewrite bind_run. unfold readPackageJson.
  rewrite Hfile. simpl. rewrite Hparse.
  rewrite bind_run. unfold emit at 1. rewrite bind_run, Hfetch.
  destruct (Z.eqb_spec (status res) 200) as [E|E].
  - destruct Hbad as [Hs | (body & Hjson & Hbody)]; [contradiction|].
    rewrite Hjson, ret_run.
    destruct body as [| |[target|] [peers|]]; try reflexivity.
    exfalso. exact (Hbody target peers eq_refl).
  - reflexivity.
Qed.

(** X10.  When the installed version of Next.js cannot be read, the run ends
    with that error after the request alone: nothing is printed, asked or
    written. *)
Theorem runUpgrade_no_installed_version
    revision verbose w appPackageJson target peers :
  reads host w appPackageJson ->
  resolves host revision target peers ->
  installedNext host = None ->
  runUpgrade compareVersions catalog host revision verbose w
  = (Throws CannotDetectInstalled,
     mkWorld (files w)
       (trace w ++ [ EvFetch ("https://registry.npmjs.org/next/"
                              +:+ JS.template revision) ])).
Proof.
  intros (text & Hfile & Hparse) (res & Hfetch & Hstatus & Hjson) Hnone.
  unfold runUpgrade. cbv zeta.
  rewrite bind_run. unfold readPackageJson.
  rewrite Hfile. simpl. rewrite Hparse.
  rewrite bind_run. unfold emit at 1.
  rewrite bind_run, Hfetch, Hstatus. simpl. rewrite Hjson, ret_run.
  rewrite bind_run. unfold getInstalledNextVersion. rewrite Hnone.
  reflexivity.
Qed.

(** Past line 75, a run is the [react] query, the Turbopack step, the
    suggestion of codemods, the write of the manifest and what follows
    it. *)
Lemma runUpgrade_upgradable
    revision verbose w appPackageJson installed target peers :
  upgradable compareVersions host revision w appPackageJson installed target
             peers ->
  runUpgrade compareVersions catalog host revision verbose w =
  (targetReactVersion ←
     loadHighestNPMVersionMatching host
       ("react@" +:+ JS.template (peers !! "react"));
   appPackageJson' ←
     turbopackStep compareVersions host target appPackageJson;
   codemods ← suggestCodemods compareVersions catalog host installed target;
   _ ← writeFileSync (cwd host +:+ "/package.json")
         (JSON_stringify host appPackageJson');
   installAndTransform host target targetReactVersion
     (JS.template (peers !! "react")) codemods verbose)
    (mkWorld (files w)
       (trace w ++ [ EvFetch ("https://registry.npmjs.org/next/"
                              +:+ JS.template revision);
                     EvLog (CurrentVersion installed) ])).
Proof.
  intros ((text & Hfile & Hparse) & (res & Hfetch & Hstatus & Hjson)
          & Hinstalled & Hlt).
  unfold runUpgrade. cbv zeta.
  rewrite bind_run. unfold readPackageJson.
  rewrite Hfile. simpl. rewrite Hparse.
  rewrite bind_run. unfold emit at 1.
  rewrite bind_run, Hfetch, Hstatus. simpl. rewrite Hjson, ret_run.
  rewrite bind_run. unfold getInstalledNextVersion. rewrite Hinstalled.
  rewrite ret_run, bind_run, console_log_run.
  destruct (Z.geb_spec (compareVersions installed target) 0); [lia|].
  cbn [files trace]. rewrite <- app_assoc. reflexivity.
Qed.

End Entry.

(** ** What a computation can emit *)

Section EmitsOnly.

Context (P : Event -> Prop).

Lemma emitsOnly_ret {A : Type} (a : A) : emitsOnly P (mret a : Run A).
Proof.
  intros w r w' [= <- <-]. exists []. split; [symmetry; apply app_nil_r|].
  constructor.
Qed.

Lemma emitsOnly_throw {A : Type} (e : Error) : emitsOnly P (@throw A e).
Proof.
  intros w r w' [= <- <-]. exists []. split; [symmetry; apply app_nil_r|].
  constructor.
Qed.

Lemma emitsOnly_emit (e : Event) : P e -> emitsOnly P (emit e).
Proof.
  intros He w r w' [= <- <-]. exists [e]. split; [reflexivity|].
  repeat constructor. exact He.
Qed.

Lemma emitsOnly_bind {A B : Type} (m : Run A) (f : A -> Run B) :
  emitsOnly P m -> (forall a, emitsOnly P (f a)) -> emitsOnly P (m ≫= f).
Proof.
  intros Hm Hf w r w' H. rewrite bind_run in H.
  destruct (m w) as [[a|e] w1] eqn:E; apply Hm in E as (evs1 & E1 & F1).
  - apply Hf in H as (evs2 & E2 & F2). exists (evs1 ++ evs2).
    split; [rewrite E2, E1, app_assoc; reflexivity|].
    apply Forall_app. auto.
  - injection H as <- <-. eauto.
Qed.

Lemma emitsOnly_grows {A : Type} (m : Run A) :
  (forall w r w', m w = (r, w') ->
     exists evs, grows w w' evs /\ Forall P evs) ->
  emitsOnly P m.
Proof.
  intros Hm w r w' H. apply Hm in H as (evs & [_ Ht] & F). eauto.
Qed.

End EmitsOnly.

Lemma emitsOnly_impl {A : Type} (P Q : Event -> Prop) (m : Run A) :
  (forall e, P e -> Q e) -> emitsOnly P m -> emitsOnly Q m.
Proof.
  intros HPQ Hm w r w' H. apply Hm in H as (evs & E & F).
  exists evs. split; [exact E|]. eapply Forall_impl; eauto.
Qed.

Section Emitted.

Variable compareVersions : string -> string -> Z.
Variable catalog : list VersionCodemods.
Variable host : Host.

Lemma loadHighest_emits query :
  emitsOnly (fun e => e = EvNpmView query)
            (loadHighestNPMVersionMatching host query).
Proof.
  intros w r w' H. apply loadHighest_grows in H as [_ Ht].
  exists [EvNpmView query]. split; [exact Ht|]. repeat constructor.
Qed.

Lemma suggestTurbopack_emits packageJson :
  emitsOnly chat (suggestTurbopack host packageJson).
Proof.
  apply emitsOnly_grows. intros w r w' H.
  apply suggestTurbopack_inv in H as (evs & G & F & _). eauto.
Qed.

Lemma suggestCodemods_emits installed target :
  emitsOnly (fun e => exists cs, e = EvPrompt (AskCodemods cs))
            (suggestCodemods compareVersions catalog host installed target).
Proof.
  apply emitsOnly_grows. intros w r w' H.
  apply suggestCodemods_inv in H as [(_ & -> & _) | (_ & G & _)].
  - exists []. split; [apply grows_refl | constructor].
  - eexists. split; [exact G|]. repeat constructor. eauto.
Qed.

Lemma call_emits P e o err : P e -> emitsOnly P (call e o err).
Proof.
  intros He. unfold call. apply emitsOnly_bind.
  - apply emitsOnly_emit, He.
  - intros []. destruct o; [apply emitsOnly_ret | apply emitsOnly_throw].
Qed.

Lemma applyCodemods_emits codemods verbose :
  emitsOnly afterWrite (applyCodemods host codemods verbose).
Proof.
  induction codemods as [|c codemods IH]; simpl.
  - apply emitsOnly_ret.
  - apply emitsOnly_bind; [apply call_emits; exact I | intros _; exact IH].
Qed.

Lemma reactDependencies_emits V R :
  emitsOnly afterWrite (reactDependencies host V R).
Proof.
  apply emitsOnly_grows. intros w r w' H.
  apply reactDependencies_inv in H as [(_ & -> & _) | (_ & G & _)].
  - exists []. split; [apply grows_refl | constructor].
  - eexists. split; [exact G|]. repeat constructor.
Qed.

(** After the manifest is written the run only queries, prints, installs
    and transforms. *)
Lemma installAndTransform_emits target V R codemods verbose :
  emitsOnly afterWrite
            (installAndTransform host target V R codemods verbose).
Proof.
  unfold installAndTransform. cbv zeta.
  apply emitsOnly_bind; [apply reactDependencies_emits|]. intros deps.
  apply emitsOnly_bind; [apply emitsOnly_emit; exact I|]. intros _.
  apply emitsOnly_bind; [apply call_emits; exact I|]. intros _.
  apply emitsOnly_bind; [apply applyCodemods_emits|]. intros _.
  apply emitsOnly_bind; [apply emitsOnly_emit; exact I|]. intros _.
  apply emitsOnly_bind.
  { destruct (_ >? 0); [apply emitsOnly_emit; exact I | apply emitsOnly_ret]. }
  intros _.
  apply emitsOnly_bind; [apply emitsOnly_emit; exact I|]. intros _.
  apply emitsOnly_ret.
Qed.

Lemma afterWrite_projections evs :
  Forall afterWrite evs -> writesOf evs = [] /\ offered evs = [].
Proof.
  induction 1 as [|e evs He _ [IHw IHo]]; [split; reflexivity|].
  destruct e as [| | |q| | |]; simpl in He; try contradiction; auto.
Qed.

(** X11.  The write of the manifest is the pivot of a run: nothing is
    installed or transformed before it, and after it the run only queries the
    registry, prints, installs and transforms; it asks no question and writes
    no second time.  A run without that write installs and transforms
    nothing and leaves the files as they were. *)
Theorem runUpgrade_pivots_on_the_write revision verbose w r w' :
  runUpgrade compareVersions catalog host revision verbose w = (r, w') ->
  exists evs,
    trace w' = trace w ++ evs /\
    (writesOf evs = [] /\ installsOf evs = [] /\ transformsOf evs = [] /\
     files w' = files w \/
     exists before content after,
       evs = before
             ++ [EvWriteFile (cwd host +:+ "/package.json") content]
             ++ after /\
       writesOf before = [] /\ installsOf before = [] /\
       transformsOf before = [] /\
       Forall afterWrite after).
Proof.
  intros H. apply runUpgrade_inv in H
    as [(evs & [Gf Gt] & _ & Hw & Hi & Ht & _)
       | (installed & target & peers & V & codemods & content & pre & _ & _
          & _ & _ & Pw & Pi & Pt & _ & _ & H)].
  - exists evs. split; [exact Gt|]. left. auto.
  - apply installAndTransform_emits in H as (post & Et & Fpost).
    simpl in Et.
    exists (pre ++ [EvWriteFile (cwd host +:+ "/package.json") content] ++ post).
    split; [rewrite Et, <- !app_assoc; reflexivity|].
    right. exists pre, content, post. repeat split; assumption.
Qed.


(** X13.  Below 15.0.0-canary, Turbopack is never brought up and what a run
    writes, if it writes, is the manifest exactly as it was parsed; a run
    that does not write leaves the files as they were. *)
Theorem runUpgrade_below_turbopack
    revision verbose w appPackageJson installed target peers r w' :
  upgradable compareVersions host revision w appPackageJson installed target
             peers ->
  compareVersions target "15.0.0-canary" < 0 ->
  runUpgrade compareVersions catalog host revision verbose w = (r, w') ->
  exists evs,
    trace w' = trace w ++ evs /\
    Forall noTurbopackQuestion evs /\
    (writesOf evs = [] /\ files w' = files w \/
     writesOf evs = [(cwd host +:+ "/package.json",
                      JSON_stringify host appPackageJson)]).
Proof.
  intros Hup Hbelow H.
  rewrite (runUpgrade_upgradable _ _ _ _ _ _ _ _ _ _ Hup) in H.
  set (url := "https://registry.npmjs.org/next/" +:+ JS.template revision) in *.
  set (query := "react@" +:+ JS.template (peers !! "react")) in *.
  set (path := cwd host +:+ "/package.json") in *.
  rewrite bind_run in H.
  destruct (loadHighestNPMVersionMatching host query _) as [[V|e] w1] eqn:EL;
    apply loadHighest_grows in EL as [Lf Lt]; simpl in Lf, Lt.
  2:{ injection H as <- <-. eexists. rewrite Lt, <- app_assoc.
      split; [reflexivity|]. split; [repeat constructor|]. left. auto. }
  rewrite bind_run in H. unfold turbopackStep in H.
  destruct (Z.geb_spec (compareVersions target "15.0.0-canary") 0); [lia|].
  rewrite ret_run, bind_run in H.
  destruct (suggestCodemods compareVersions catalog host installed target w1)
    as [[codemods|e] w2] eqn:ES.
  2:{ injection H as <- <-.
      pose proof (suggestCodemods_inv _ _ _ _ _ _ _ _ ES) as HS.
      apply suggestCodemods_emits in ES as (evs & Et & F).
      eexists. rewrite Et, Lt, <- !app_assoc.
      split; [reflexivity|]. split.
      - repeat constructor.
        eapply Forall_impl; [exact F|]. intros ? [cs ->]. exact I.
      - left. split.
        + unfold writesOf. rewrite !omap_app. simpl.
          clear -F. induction F as [|? ? [cs ->] _ IH]; [reflexivity | exact IH].
        + destruct HS as [(_ & -> & _) | (_ & [Sf _] & _)]; congruence. }
  assert (files w2 = files w /\
          exists asked,
            trace w2 = trace w ++ [EvFetch url; EvLog (CurrentVersion installed);
                                   EvNpmView query] ++ asked /\
            Forall noTurbopackQuestion asked /\ writesOf asked = [])
    as (Wf & asked & Wt & Fa & Wa).
  { pose proof (suggestCodemods_inv _ _ _ _ _ _ _ _ ES) as HS.
    apply suggestCodemods_emits in ES as (evs & Et & F).
    split; [destruct HS as [(_ & -> & _) | (_ & [Sf _] & _)]; congruence|].
    exists evs. rewrite Et, Lt, <- !app_assoc. split; [reflexivity|]. split.
    - eapply Forall_impl; [exact F|]. intros ? [cs ->]. exact I.
    - clear -F. induction F as [|? ? [cs ->] _ IH]; [reflexivity | exact IH]. }
  clear ES.
  rewrite bind_run in H. unfold writeFileSync at 1 in H.
  apply installAndTransform_emits in H as (post & Et & Fpost).
  simpl in Et. rewrite Wt in Et.
  destruct (afterWrite_projections _ Fpost) as [Pw _].
  exists (([EvFetch url; EvLog (CurrentVersion installed); EvNpmView query]
           ++ asked)
          ++ [EvWriteFile path (JSON_stringify host appPackageJson)] ++ post).
  split; [rewrite Et, <- !app_assoc; reflexivity|]. split.
  - rewrite !Forall_app. repeat split.
    + repeat constructor.
    + exact Fa.
    + repeat constructor.
    + eapply Forall_impl; [exact Fpost|].
      intros [| | |q| | |] He; simpl in He; try contradiction; exact I.
  - right. unfold writesOf in *. rewrite !omap_app, Wa, Pw. reflexivity.
Qed.

Lemma writeFileSync_emits P path content :
  P (EvWriteFile path content) -> emitsOnly P (writeFileSync path content).
Proof.
  intros He w r w' [= <- <-]. exists [EvWriteFile path content].
  split; [reflexivity|]. repeat constructor. exact He.
Qed.

Lemma turbopackStep_emits target appPackageJson :
  emitsOnly chat (turbopackStep compareVersions host target appPackageJson).
Proof.
  unfold turbopackStep.
  destruct (_ >=? 0); [apply suggestTurbopack_emits | apply emitsOnly_ret].
Qed.

(** X14.  A release that declares no [react] peer makes the run query the
    registry for [react@undefined], right after the installed version is
    printed. *)
Theorem runUpgrade_react_peer_missing
    revision verbose w appPackageJson installed target peers r w' :
  upgradable compareVersions host revision w appPackageJson installed target
             peers ->
  peers !! "react" = None ->
  runUpgrade compareVersions catalog host revision verbose w = (r, w') ->
  exists rest,
    trace w' =
    trace w ++ [ EvFetch ("https://registry.npmjs.org/next/"
                          +:+ JS.template revision);
                 EvLog (CurrentVersion installed);
                 EvNpmView "react@undefined" ] ++ rest.
Proof.
  intros Hup Hnone H.
  rewrite (runUpgrade_upgradable _ _ _ _ _ _ _ _ _ _ Hup), Hnone in H.
  change ("react@" +:+ JS.template None) with "react@undefined" in H.
  rewrite bind_run in H.
  destruct (loadHighestNPMVersionMatching host "react@undefined" _)
    as [[V|e] w1] eqn:EL;
    apply loadHighest_grows in EL as [_ Lt]; simpl in Lt.
  2:{ injection H as <- <-. exists []. rewrite Lt, <- app_assoc. reflexivity. }
  assert (emitsOnly (fun _ => True)
            (appPackageJson' ←
               turbopackStep compareVersions host target appPackageJson;
             codemods ←
               suggestCodemods compareVersions catalog host installed target;
             _ ← writeFileSync (cwd host +:+ "/package.json")
                   (JSON_stringify host appPackageJson');
             installAndTransform host target V (JS.template None) codemods
                                 verbose)) as Hrest.
  { apply emitsOnly_bind;
      [eapply emitsOnly_impl, turbopackStep_emits; auto|]. intros app'.
    apply emitsOnly_bind;
      [eapply emitsOnly_impl, suggestCodemods_emits; auto|]. intros codemods.
    apply emitsOnly_bind; [apply writeFileSync_emits; exact I|]. intros _.
    eapply emitsOnly_impl, installAndTransform_emits. auto. }
  apply Hrest in H as (rest & Et & _).
  exists rest. rewrite Et, Lt, <- !app_assoc. reflexivity.
Qed.

(** X15.  From 15.0.0-canary on, a manifest without a dev script ends the run
    with a type error as soon as the [react] version is resolved: the user is
    asked nothing and nothing is written. *)
Theorem runUpgrade_no_dev_script
    revision verbose w appPackageJson installed target peers V :
  upgradable compareVersions host revision w appPackageJson installed target
             peers ->
  compareVersions target "15.0.0-canary" >= 0 ->
  devScriptOf appPackageJson = None ->
  fst (loadHighestNPMVersionMatching host
         ("react@" +:+ JS.template (peers !! "react")) w) = Returns V ->
  runUpgrade compareVersions catalog host revision verbose w =
  (Throws TypeError,
   mkWorld (files w)
     (trace w ++ [ EvFetch ("https://registry.npmjs.org/next/"
                            +:+ JS.template revision);
                   EvLog (CurrentVersion installed);
                   EvNpmView ("react@" +:+ JS.template (peers !! "react")) ])).
Proof.
  intros Hup Hgate Hdev HV.
  rewrite (runUpgrade_upgradable _ _ _ _ _ _ _ _ _ _ Hup).
  set (query := "react@" +:+ JS.template (peers !! "react")) in *.
  rewrite bind_run.
  match goal with
  | |- context [loadHighestNPMVersionMatching host query ?w0] =>
      pose proof (loadHighest_world host query w0) as Hw;
      pose proof (loadHighest_result host query w0 w) as Hr;
      destruct (loadHighestNPMVersionMatching host query w0) as [r1 w1]
  end.
  simpl in Hw, Hr. rewrite HV in Hr. subst r1 w1.
  rewrite bind_run. unfold turbopackStep.
  destruct (Z.geb_spec (compareVersions target "15.0.0-canary") 0); [|lia].
  unfold suggestTurbopack. unfold devScriptOf in Hdev.
  destruct (scripts appPackageJson) as [sc|]; simpl in Hdev.
  - rewrite Hdev. rewrite throw_run, <- app_assoc. reflexivity.
  - rewrite throw_run, <- app_assoc. reflexivity.
Qed.

(** X16.  A run that reaches its end has installed once, then transformed
    every selected codemod, in the order of the selection, then printed its
    closing lines; the line that reports the codemods as applied is printed
    exactly when at least one was selected.  Nothing is installed or
    transformed before that install, and every transform returned. *)
Theorem runUpgrade_completed revision verbose w w' :
  runUpgrade compareVersions catalog host revision verbose w
  = (Returns ReturnEnd, w') ->
  exists evs before packages,
    trace w' = trace w ++ evs /\
    evs =
    before
    ++ [ EvInstall packages (getPkgManager host (cwd host)) (negb verbose) ]
    ++ map (fun c => EvTransform c (cwd host) true verbose)
           (selected host evs)
    ++ [ EvLog Blank ]
    ++ (match selected host evs with
        | [] => []
        | _ => [ EvLog CodemodsApplied ]
        end)
    ++ [ EvLog ReviewChanges ] /\
    installsOf before = [] /\ transformsOf before = [] /\
    Forall (fun c => exists b, runTransform host c (cwd host) true verbose
                               = Returned b) (selected host evs).
Proof.
  intros H. apply runUpgrade_inv in H
    as [(evs & _ & Hend & _)
       | (installed & target & peers & V & codemods & content & pre & _ & _
          & _ & _ & Pw & Pi & Pt & _ & Psel & H)]; [discriminate Hend|].
  unfold installAndTransform in H. cbv zeta in H.
  rewrite bind_run in H.
  destruct (reactDependencies host V _ _) as [[deps|e] w1] eqn:Ed;
    [|discriminate].
  assert (exists views,
            trace w1 = (trace w ++ pre
                        ++ [EvWriteFile (cwd host +:+ "/package.json") content])
                       ++ views /\
            installsOf views = [] /\ transformsOf views = [] /\
            offered views = [])
    as (views & Vt & Vi & Vtr & Vo).
  { apply reactDependencies_inv in Ed as [(_ & -> & _) | (_ & [_ Vt] & _)].
    - exists []. rewrite app_nil_r. auto.
    - eexists. split; [exact Vt|]. repeat split; reflexivity. }
  clear Ed.
  rewrite bind_run, console_log_run, bind_run, call_run in H.
  destruct (installPackages host _ _ _) as [b|]; [|discriminate].
  rewrite bind_run in H.
  destruct (applyCodemods host codemods verbose _) as [[[]|e] w2] eqn:El;
    [|discriminate].
  apply applyCodemods_inv in El
    as (k & [_ Lt] & [(_ & -> & Hall) | (? & ? & _ & _ & _ & [=] & _)]).
  rewrite firstn_all in Lt. simpl in Lt. rewrite Vt in Lt.
  assert (Forall (fun c => exists b, runTransform host c (cwd host) true verbose
                                     = Returned b) codemods) as Hret.
  { eapply Forall_impl; [exact Hall|]. simpl. intros c Hc.
    destruct (runTransform host c (cwd host) true verbose); [eauto | congruence]. }
  set (before := pre ++ [EvWriteFile (cwd host +:+ "/package.json") content]
                 ++ views ++ [EvLog (Upgrading target)]).
  set (packages := ("next@" +:+ target) :: deps) in *.
  set (evs :=
         before
         ++ [ EvInstall packages (getPkgManager host (cwd host))
                        (negb verbose) ]
         ++ map (fun c => EvTransform c (cwd host) true verbose) codemods
         ++ [ EvLog Blank ]
         ++ (match codemods with [] => [] | _ => [ EvLog CodemodsApplied ] end)
         ++ [ EvLog ReviewChanges ]).
  assert (offered evs = offered pre) as Eo.
  { destruct (transforms_shown codemods (cwd host) true verbose)
      as (_ & _ & To & _).
    unfold evs, before, offered in *. cbv zeta in To.
    rewrite !omap_app, Vo, To.
    destruct codemods; simpl; rewrite ?app_nil_r; reflexivity. }
  assert (selected host evs = codemods) as Es.
  { unfold selected. rewrite Eo.
    destruct Psel as [(_ & -> & ->) | (-> & ->)]; reflexivity. }
  exists evs, before, packages. rewrite Es.
  split; [|split; [reflexivity|split; [|split; [|exact Hret]]]].
  - unfold console_log, mbind, Run_bind, emit, mret, Run_ret in H.
    unfold evs, before.
    destruct codemods as [|c codemods]; simpl in H; injection H as <-;
      simpl; rewrite Lt; simpl; rewrite <- ?app_assoc; simpl;
      rewrite <- ?app_assoc; reflexivity.
  - unfold before, installsOf in *. rewrite !omap_app, Pi, Vi. reflexivity.
  - unfold before, transformsOf in *. rewrite !omap_app, Pt, Vtr. reflexivity.
Qed.

End Emitted.

Section Once.

Variable compareVersions : string -> string -> Z.
Variable catalog : list VersionCodemods.
Variable host : Host.

(** X12.  A run installs at most once, and it transforms only after an install
    that returned. *)
Theorem runUpgrade_installs_once revision verbose w r w' :
  runUpgrade compareVersions catalog host revision verbose w = (r, w') ->
  exists evs,
    trace w' = trace w ++ evs /\
    (length (installsOf evs) <= 1)%nat /\
    (transformsOf evs <> [] ->
     exists packages b,
       installsOf evs = [packages] /\
       installPackages host packages (getPkgManager host (cwd host))
                       (negb verbose) = Returned b).
Proof.
  intros H. apply runUpgrade_shape in H as (evs & Ht & Hshape).
  exists evs. split; [exact Ht|].
  destruct Hshape
    as [(_ & _ & _ & -> & -> & _)
       | (i & t & p & V & codemods & content & _ & _ & _ & _ & _ & _ & _ & _
          & _ & [(_ & _ & -> & ->) | (deps & k & _ & -> & -> & Hk)])];
    try (split; [simpl; lia | congruence]).
  split; [simpl; lia|]. intros Hsome.
  destruct (installPackages host _ _ _) as [b|] eqn:Ei.
  - eauto.
  - destruct Hk as [_ ->]. rewrite take_0 in Hsome. congruence.
Qed.

End Once.

(** ** The properties above on the sample environments *)

Lemma suggestTurbopack_frame_witness :
  otherFields (Cases.withDev "next dev --turbo")
  = otherFields (Cases.withDev "next dev") /\
  exists sc sc',
    scripts (Cases.withDev "next dev") = Some sc /\
    scripts (Cases.withDev "next dev --turbo") = Some sc' /\
    is_Some (sc !! "dev") /\ is_Some (sc' !! "dev") /\
    forall name, name <> "dev" -> sc' !! name = sc !! name.
Proof.
  apply (suggestTurbopack_frame (Cases.hostOf "13.0.0" true EmptyString)
           (Cases.withDev "next dev") (Cases.withDev "next dev --turbo")
           (Cases.worldOf "next dev")
           (mkWorld (files (Cases.worldOf "next dev"))
                    [EvPrompt (AskEnable true)])).
  vm_compute. reflexivity.
Defined.

Lemma suggestTurbopack_consent_witness :
  let h := Cases.hostOf "13.0.0" true EmptyString in
  let p := Cases.withDev "next dev" in
  let w := Cases.worldOf "next dev" in
  (forall packageJson', fst (suggestTurbopack h p w) = Returns packageJson' ->
     packageJson' <> p ->
     answer_enable h true = Some true /\
     exists devScript, devScriptOf p = Some devScript /\
                       JS.includes devScript "--turbo" = false) /\
  (forall devScript, devScriptOf p = Some devScript ->
     JS.includes devScript "--turbo" = true ->
     fst (suggestTurbopack h p w) = Returns p /\
     snd (suggestTurbopack h p w) = w).
Proof.
  apply (suggestTurbopack_consent (Cases.hostOf "13.0.0" true EmptyString)
           (Cases.withDev "next dev") (Cases.worldOf "next dev")).
  apply surjective_pairing.
Defined.

Lemma suggestTurbopack_settles_witness :
  let h := Cases.hostOf "13.0.0" true EmptyString in
  exists packageJson',
    suggestTurbopack h (Cases.withDev "x && next dev -p 3000")
                     (Cases.worldOf "x && next dev -p 3000") =
      (Returns packageJson',
       mkWorld (files (Cases.worldOf "x && next dev -p 3000"))
               (trace (Cases.worldOf "x && next dev -p 3000")
                ++ [EvPrompt (AskEnable true)])) /\
    devScriptOf packageJson'
    = Some (JS.replace "x && next dev -p 3000" "next dev" "next dev --turbo") /\
    forall w2, suggestTurbopack h packageJson' w2 = (Returns packageJson', w2).
Proof.
  apply (suggestTurbopack_settles (Cases.hostOf "13.0.0" true EmptyString)
           (Cases.withDev "x && next dev -p 3000")
           {[ "dev" := "x && next dev -p 3000"; "build" := "next build" ]}
           "x && next dev -p 3000"
           (Cases.worldOf "x && next dev -p 3000"));
    reflexivity.
Defined.

Lemma suggestTurbopack_empty_entry_witness :
  suggestTurbopack (Cases.hostOf "13.0.0" true EmptyString)
                   (Cases.withDev "vite") (Cases.worldOf "vite") =
  (Returns (Cases.withDev "vite"),
   mkWorld (files (Cases.worldOf "vite"))
     (trace (Cases.worldOf "vite")
      ++ [ EvPrompt (AskEnable true); EvLog CouldNotFindNextDev;
           EvPrompt (AskCustomDevScript "vite") ])).
Proof.
  apply (suggestTurbopack_empty_entry
           (Cases.hostOf "13.0.0" true EmptyString)
           (Cases.withDev "vite") "vite" (Cases.worldOf "vite"));
    reflexivity.
Defined.

Lemma suggestCodemods_nothing_newer_witness :
  suggestCodemods Sample.compareVersions Sample.catalog Sample.host
                  "16.0.0" "17.0.0" Sample.world
  = (Returns [], Sample.world).
Proof.
  apply (suggestCodemods_nothing_newer Sample.compareVersions Sample.catalog
           Sample.host "16.0.0" "17.0.0" Sample.world).
  unfold Sample.catalog. repeat constructor; vm_compute; discriminate.
Defined.

Lemma suggestCodemods_not_an_upgrade_witness :
  suggestCodemods Sample.compareVersions Sample.catalog Sample.host
                  "15.0.0" "14.0.0" Sample.world
  = (Returns [], Sample.world).
Proof.
  apply (suggestCodemods_not_an_upgrade Sample.compareVersions Sample.catalog
           Sample.host "15.0.0" "14.0.0" Sample.world
           sample_compare_trans sample_catalog_ascending).
  vm_compute. discriminate.
Defined.

Lemma runUpgrade_unreadable_manifest_witness :
  runUpgrade Sample.compareVersions Sample.catalog Sample.host
             (Some "15.0.0") false (mkWorld ∅ [])
  = (Throws (ReadFailed "/app/package.json"), mkWorld ∅ []).
Proof.
  apply (runUpgrade_unreadable_manifest Sample.compareVersions Sample.catalog
           Sample.host (Some "15.0.0") false (mkWorld ∅ [])).
  reflexivity.
Defined.

Lemma runUpgrade_invalid_revision_witness :
  runUpgrade Sample.compareVersions Sample.catalog Sample.host
             (Some "canary") false Sample.world
  = (Throws (InvalidRevision (Some "canary")),
     mkWorld (files Sample.world)
       (trace Sample.world
        ++ [ EvFetch ("https://registry.npmjs.org/next/"
                      +:+ JS.template (Some "canary")) ])).
Proof.
  apply (runUpgrade_invalid_revision Sample.compareVersions Sample.catalog
           Sample.host (Some "canary") false Sample.world
           (mkPackageJson (Some {[ "dev" := "next dev" ]}) EmptyString)
           (mkResponse 404 (Some BodyPrimitive))).
  - exists "next dev". split; reflexivity.
  - reflexivity.
  - left. simpl. discriminate.
Defined.

Lemma runUpgrade_no_installed_version_witness :
  runUpgrade Sample.compareVersions Sample.catalog Cases.undetected
             (Some "15.0.0") false (Cases.worldOf "next dev")
  = (Throws CannotDetectInstalled,
     mkWorld (files (Cases.worldOf "next dev"))
       (trace (Cases.worldOf "next dev")
        ++ [ EvFetch ("https://registry.npmjs.org/next/"
                      +:+ JS.template (Some "15.0.0")) ])).
Proof.
  apply (runUpgrade_no_installed_version Sample.compareVersions
           Sample.catalog Cases.undetected (Some "15.0.0") false
           (Cases.worldOf "next dev") (Cases.withDev "next dev")
           "15.0.0" {[ "react" := Sample.reactRange ]}).
  - exists "next dev". split; reflexivity.
  - eexists. repeat split; reflexivity.
  - reflexivity.
Defined.

Lemma runUpgrade_pivots_on_the_write_witness :
  let h := Cases.hostOf "13.0.0" true "vite --turbo" in
  exists evs,
    trace (snd (Cases.run h "vite" "15.0.0"))
    = trace (Cases.worldOf "vite") ++ evs /\
    (writesOf evs = [] /\ installsOf evs = [] /\ transformsOf evs = [] /\
     files (snd (Cases.run h "vite" "15.0.0")) = files (Cases.worldOf "vite")
     \/
     exists before content after,
       evs = before ++ [EvWriteFile (cwd h +:+ "/package.json") content]
             ++ after /\
       writesOf before = [] /\ installsOf before = [] /\
       transformsOf before = [] /\
       Forall afterWrite after).
Proof.
  apply (runUpgrade_pivots_on_the_write Sample.compareVersions Sample.catalog
           (Cases.hostOf "13.0.0" true "vite --turbo") (Some "15.0.0") true
           (Cases.worldOf "vite")
           (fst (Cases.run (Cases.hostOf "13.0.0" true "vite --turbo")
                           "vite" "15.0.0"))).
  apply surjective_pairing.
Defined.

Lemma runUpgrade_installs_once_witness :
  let h := Cases.hostOf "13.0.0" true EmptyString in
  exists evs,
    trace (snd (Cases.run h "next dev" "15.0.0"))
    = trace (Cases.worldOf "next dev") ++ evs /\
    (length (installsOf evs) <= 1)%nat /\
    (transformsOf evs <> [] ->
     exists packages b,
       installsOf evs = [packages] /\
       installPackages h packages (getPkgManager h (cwd h)) (negb true)
       = Returned b).
Proof.
  apply (runUpgrade_installs_once Sample.compareVersions Sample.catalog
           (Cases.hostOf "13.0.0" true EmptyString) (Some "15.0.0") true
           (Cases.worldOf "next dev")
           (fst (Cases.run (Cases.hostOf "13.0.0" true EmptyString)
                           "next dev" "15.0.0"))).
  apply surjective_pairing.
Defined.

Lemma runUpgrade_below_turbopack_witness :
  let h := Cases.hostOf "13.0.0" true EmptyString in
  exists evs,
    trace (snd (Cases.run h "next dev" "14.2.0"))
    = trace (Cases.worldOf "next dev") ++ evs /\
    Forall noTurbopackQuestion evs /\
    (writesOf evs = [] /\
     files (snd (Cases.run h "next dev" "14.2.0"))
     = files (Cases.worldOf "next dev") \/
     writesOf evs = [(cwd h +:+ "/package.json",
                      JSON_stringify h (Cases.withDev "next dev"))]).
Proof.
  apply (runUpgrade_below_turbopack Sample.compareVersions Sample.catalog
           (Cases.hostOf "13.0.0" true EmptyString) (Some "14.2.0") true
           (Cases.worldOf "next dev") (Cases.withDev "next dev")
           "13.0.0" "14.2.0" {[ "react" := Sample.reactRange ]}
           (fst (Cases.run (Cases.hostOf "13.0.0" true EmptyString)
                           "next dev" "14.2.0"))).
  - split; [exists "next dev"; split; reflexivity|].
    split; [eexists; repeat split; reflexivity|].
    split; reflexivity.
  - reflexivity.
  - apply surjective_pairing.
Defined.

Lemma runUpgrade_react_peer_missing_witness :
  let h := Cases.hostOf "13.0.0" true EmptyString in
  exists rest,
    trace (snd (Cases.run h "next dev" "15.1.0")) =
    trace (Cases.worldOf "next dev")
    ++ [ EvFetch ("https://registry.npmjs.org/next/"
                  +:+ JS.template (Some "15.1.0"));
         EvLog (CurrentVersion "13.0.0");
         EvNpmView "react@undefined" ] ++ rest.
Proof.
  apply (runUpgrade_react_peer_missing Sample.compareVersions Sample.catalog
           (Cases.hostOf "13.0.0" true EmptyString) (Some "15.1.0") true
           (Cases.worldOf "next dev") (Cases.withDev "next dev")
           "13.0.0" "15.1.0" {[ "sass" := "^1.3.0" ]}
           (fst (Cases.run (Cases.hostOf "13.0.0" true EmptyString)
                           "next dev" "15.1.0"))).
  - split; [exists "next dev"; split; reflexivity|].
    split; [eexists; repeat split; reflexivity|].
    split; reflexivity.
  - reflexivity.
  - apply surjective_pairing.
Defined.

Lemma runUpgrade_no_dev_script_witness :
  runUpgrade Sample.compareVersions Sample.catalog
             (Cases.hostOf "13.0.0" true EmptyString) (Some "15.0.0") true
             (Cases.worldOf EmptyString) =
  (Throws TypeError,
   mkWorld (files (Cases.worldOf EmptyString))
     (trace (Cases.worldOf EmptyString)
      ++ [ EvFetch ("https://registry.npmjs.org/next/"
                    +:+ JS.template (Some "15.0.0"));
           EvLog (CurrentVersion "13.0.0");
           EvNpmView ("react@" +:+ JS.template
                        (({[ "react" := Sample.reactRange ]}
                          : gmap string string) !! "react")) ])).
Proof.
  apply (runUpgrade_no_dev_script Sample.compareVersions Sample.catalog
           (Cases.hostOf "13.0.0" true EmptyString) (Some "15.0.0") true
           (Cases.worldOf EmptyString)
           (mkPackageJson (Some {[ "build" := "next build" ]}) EmptyString)
           "13.0.0" "15.0.0" {[ "react" := Sample.reactRange ]} "19.0.0").
  - split; [exists EmptyString; split; reflexivity|].
    split; [eexists; repeat split; reflexivity|].
    split; reflexivity.
  - vm_compute. discriminate.
  - reflexivity.
  - reflexivity.
Defined.

Lemma runUpgrade_completed_witness :
  let h := Cases.hostOf "13.0.0" true EmptyString in
  exists evs before packages,
    trace (snd (Cases.run h "next dev" "15.0.0"))
    = trace (Cases.worldOf "next dev") ++ evs /\
    evs =
    before
    ++ [ EvInstall packages (getPkgManager h (cwd h)) (negb true) ]
    ++ map (fun c => EvTransform c (cwd h) true true) (selected h evs)
    ++ [ EvLog Blank ]
    ++ (match selected h evs with
        | [] => []
        | _ => [ EvLog CodemodsApplied ]
        end)
    ++ [ EvLog ReviewChanges ] /\
    installsOf before = [] /\ transformsOf before = [] /\
    Forall (fun c => exists b, runTransform h c (cwd h) true true
                               = Returned b) (selected h evs).
Proof.
  apply (runUpgrade_completed Sample.compareVersions Sample.catalog
           (Cases.hostOf "13.0.0" true EmptyString) (Some "15.0.0") true
           (Cases.worldOf "next dev")).
  vm_compute. reflexivity.
Defined.


(** ** Runs that get past the suggestion of codemods *)

(** What the Turbopack suggestion answers does not depend on the world. *)
Lemma suggestTurbopack_result host packageJson w1 w2 :
  fst (suggestTurbopack host packageJson w1)
  = fst (suggestTurbopack host packageJson w2).
Proof.
  unfold suggestTurbopack, prompts_enable, prompts_customDevScript,
    console_log, mbind, Run_bind, emit, throw, mret, Run_ret.
  destruct (scripts packageJson) as [sc|]; [|reflexivity].
  destruct (sc !! "dev") as [devScript|]; [|reflexivity].
  destruct (JS.includes devScript "--turbo"); [reflexivity|].
  destruct (answer_enable host true) as [[|]|]; simpl; try reflexivity.
  destruct (JS.includes devScript "next dev"); simpl; [reflexivity|].
  destruct (answer_customDevScript host devScript); reflexivity.
Qed.

Lemma turbopackStep_result compareVersions host target packageJson w1 w2 :
  fst (turbopackStep compareVersions host target packageJson w1)
  = fst (turbopackStep compareVersions host target packageJson w2).
Proof.
  unfold turbopackStep.
  destruct (_ >=? 0); [apply suggestTurbopack_result | reflexivity].
Qed.

Section Past.

Variable compareVersions : string -> string -> Z.
Variable catalog : list VersionCodemods.
Variable host : Host.

(** A run reads the manifest or fails on it at once. *)
Lemma runUpgrade_reads revision verbose w r w' :
  runUpgrade compareVersions catalog host revision verbose w = (r, w') ->
  (exists appPackageJson, reads host w appPackageJson) \/ w' = w.
Proof.
  unfold runUpgrade. cbv zeta. rewrite bind_run. unfold readPackageJson at 1.
  destruct (files w !! (cwd host +:+ "/package.json")) as [text|] eqn:Ef;
    simpl.
  - destruct (JSON_parse host text) as [app|] eqn:Ep.
    + intros _. left. exists app, text. auto.
    + intros [= _ <-]. right. reflexivity.
  - intros [= _ <-]. right. reflexivity.
Qed.

(** A run in which the manifest is written, or that reaches its end, went
    through every step up to the write: the manifest was read, the
    revision resolved to a later version, the [react] query and the
    Turbopack step returned, the relevant codemods (if any) were offered
    and the offer answered, and the manifest as the Turbopack step left it
    was written, once. *)
Lemma runUpgrade_past_suggestion revision verbose w r w' evs :
  runUpgrade compareVersions catalog host revision verbose w = (r, w') ->
  trace w' = trace w ++ evs ->
  writesOf evs <> [] \/ r = Returns ReturnEnd ->
  exists appPackageJson installed target peers V appPackageJson' codemods,
    let relevant :=
      relevantCodemods compareVersions catalog installed target in
    upgradable compareVersions host revision w appPackageJson installed
               target peers /\
    (forall w0, fst (loadHighestNPMVersionMatching host
                       ("react@" +:+ JS.template (peers !! "react")) w0)
                = Returns V) /\
    (forall w0, fst (turbopackStep compareVersions host target
                                   appPackageJson w0)
                = Returns appPackageJson') /\
    writesOf evs = [(cwd host +:+ "/package.json",
                     JSON_stringify host appPackageJson')] /\
    offered evs = match relevant with
                  | [] => []
                  | _ :: _ => [map toChoice (rev relevant)]
                  end /\
    (match relevant with
     | [] => codemods = []
     | _ :: _ =>
         answer_codemods host (map toChoice (rev relevant)) = Some codemods
     end) /\
    selected host evs = codemods.
Proof.
  intros H Ht Hpast.
  (* the run did not end early *)
  pose proof (runUpgrade_reads _ _ _ _ _ H) as Hread.
  pose proof (runUpgrade_inv _ _ _ _ _ _ _ _ H)
    as [(evs0 & [_ Gt] & Hend & Hw & _)
       | (installed & target & peers & V0 & codemods0 & content & pre & Hres
          & Hinst & Hlt & _ & _ & _ & _ & _ & _ & H0)].
  { exfalso. rewrite Gt in Ht. apply app_inv_head in Ht. subst evs0.
    destruct Hpast as [Hp | ->]; [exact (Hp Hw) | discriminate Hend]. }
  destruct Hread as [[app Happ] | ->].
  2:{ exfalso. apply installAndTransform_emits in H0 as (post & E & _).
      simpl in E. apply (f_equal length) in E.
      rewrite !length_app in E. simpl in E. lia. }
  clear H0 V0 codemods0 content pre.
  assert (upgradable compareVersions host revision w app installed target
                     peers) as Hup by (repeat split; assumption).
  rewrite (runUpgrade_upgradable _ _ _ _ _ _ _ _ _ _ Hup) in H.
  set (url := "https://registry.npmjs.org/next/" +:+ JS.template revision) in *.
  set (query := "react@" +:+ JS.template (peers !! "react")) in *.
  set (path := cwd host +:+ "/package.json") in *.
  (* the react query *)
  rewrite bind_run in H.
  match type of H with
  | context [loadHighestNPMVersionMatching host query ?w0] =>
      pose proof (loadHighest_result host query w0) as HV;
      destruct (loadHighestNPMVersionMatching host query w0)
        as [[V|e] w1] eqn:EL
  end;
    apply loadHighest_grows in EL as [Lf Lt]; simpl in Lf, Lt, HV.
  2:{ exfalso. injection H as <- <-. rewrite Lt, <- app_assoc in Ht.
    apply app_inv_head in Ht. subst evs.
    destruct Hpast as [Hp | [=]]. apply Hp. reflexivity. }
  (* the Turbopack step *)
  rewrite bind_run in H.
  pose proof (turbopackStep_result compareVersions host target app w1) as HT.
  destruct (turbopackStep compareVersions host target app w1)
    as [[app'|e] w2] eqn:ET;
    pose proof (turbopackStep_emits _ _ _ _ _ _ _ ET) as (asked & Tt & Fa);
    destruct (chat_silent _ Fa) as (_ & _ & Ao & _ & Aw); simpl in HT.
  2:{ exfalso. injection H as <- <-. rewrite Tt, Lt, <- !app_assoc in Ht.
    apply app_inv_head in Ht. subst evs.
    destruct Hpast as [Hp | [=]]. apply Hp.
    unfold writesOf in *. rewrite !omap_app, Aw. reflexivity. }
  (* the suggestion *)
  rewrite bind_run in H.
  destruct (suggestCodemods compareVersions catalog host installed target w2)
    as [[codemods|e] w3] eqn:ES;
    apply suggestCodemods_inv in ES
      as [(Hrel & -> & [= E]) | (Hrel & [_ St] & E)].
  - (* nothing to offer *)
    subst codemods.
    rewrite bind_run in H. unfold writeFileSync at 1 in H.
    apply installAndTransform_emits in H as (after & At & Fafter).
    destruct (afterWrite_projections _ Fafter) as [Pw Po].
    simpl in At. rewrite At, Tt, Lt, <- !app_assoc in Ht.
    apply app_inv_head in Ht. subst evs.
    exists app, installed, target, peers, V, app', [].
    cbv zeta. rewrite Hrel.
    assert (offered ([EvFetch url; EvLog (CurrentVersion installed)]
                     ++ [EvNpmView query] ++ asked
                     ++ [EvWriteFile path (JSON_stringify host app')] ++ after)
            = []) as Eo.
    { unfold offered in *. rewrite !omap_app, Ao, Po. reflexivity. }
    unfold selected. rewrite Eo.
    repeat split; try assumption; try reflexivity.
    + intros w0. rewrite <- HV. reflexivity.
    + intros w0. rewrite <- HT. reflexivity.
    + unfold writesOf in *. rewrite !omap_app, Aw, Pw. reflexivity.
  - (* the offer was answered *)
    destruct (answer_codemods host _) as [sel|] eqn:Ea; [|discriminate].
    injection E as ->.
    rewrite bind_run in H. unfold writeFileSync at 1 in H.
    apply installAndTransform_emits in H as (after & At & Fafter).
    destruct (afterWrite_projections _ Fafter) as [Pw Po].
    simpl in At. rewrite At, St, Tt, Lt, <- !app_assoc in Ht.
    apply app_inv_head in Ht. subst evs.
    exists app, installed, target, peers, V, app', sel.
    cbv zeta.
    destruct (relevantCodemods compareVersions catalog installed target)
      as [|vc relevant] eqn:Er; [congruence|].
    assert (offered ([EvFetch url; EvLog (CurrentVersion installed)]
                     ++ [EvNpmView query] ++ asked
                     ++ [EvPrompt (AskCodemods
                                     (map toChoice (rev (vc :: relevant))))]
                     ++ [EvWriteFile path (JSON_stringify host app')] ++ after)
            = [map toChoice (rev (vc :: relevant))]) as Eo.
    { unfold offered in *. rewrite !omap_app, Ao, Po. reflexivity. }
    unfold selected. rewrite Eo, Ea.
    repeat split; try assumption; try reflexivity.
    + intros w0. rewrite <- HV. reflexivity.
    + intros w0. rewrite <- HT. reflexivity.
    + unfold writesOf in *. rewrite !omap_app, Aw, Pw. reflexivity.
  - (* the offer was cancelled *)
    exfalso. injection H as <- <-.
    destruct (answer_codemods host _); [discriminate|]. injection E as ->.
    rewrite St, Tt, Lt, <- !app_assoc in Ht.
    apply app_inv_head in Ht. subst evs.
    destruct Hpast as [Hp | [=]]. apply Hp.
    unfold writesOf in *. rewrite !omap_app, Aw. reflexivity.
Qed.

End Past.

(** ** The order of the codemods, and failures against the manifest *)

(** C1, as the code has it.  In every run that writes the manifest, and so
    in every run that reaches its end, the codemods relevant to the
    installed and target versions were offered, once, newest first: the
    choices offered are those of the relevant catalog entries in the
    reverse of catalog order, and nothing is offered when no entry is
    relevant.  The selection is the answer to that offer.  Whatever is
    offered in a run is offered in that order.  The transforms applied
    are, in order, a prefix of the selection, and the whole selection when
    the run reaches its end: [runUpgrade] never reorders what
    [suggestCodemods] returns.  When the answer to the prompt keeps the
    order of the choices, the codemods are therefore applied in the
    reverse of catalog order. *)
Theorem C1_offered_and_applied_newest_first
    (compareVersions : string -> string -> Z)
    (catalog : list VersionCodemods) (host : Host)
    (revision : option string) (verbose : bool)
    (w : World) (r : Completion ReturnPoint) (w' : World) :
  runUpgrade compareVersions catalog host revision verbose w = (r, w') ->
  exists evs,
    trace w' = trace w ++ evs /\
    (r = Returns ReturnEnd -> writesOf evs <> []) /\
    (writesOf evs <> [] ->
     exists installed target peers,
       let relevant :=
         relevantCodemods compareVersions catalog installed target in
       installedNext host = Some installed /\
       resolves host revision target peers /\
       compareVersions installed target < 0 /\
       offered evs = match relevant with
                     | [] => []
                     | _ :: _ => [map toChoice (rev relevant)]
                     end /\
       match relevant with
       | [] => selected host evs = []
       | _ :: _ => answer_codemods host (map toChoice (rev relevant))
                   = Some (selected host evs)
       end) /\
    (forall cs, cs ∈ offered evs ->
       exists installed target peers,
         installedNext host = Some installed /\
         resolves host revision target peers /\
         map choice_value cs =
           rev (map value
                  (relevantCodemods compareVersions catalog installed target)) /\
         map choice_value cs `sublist_of` rev (map value catalog)) /\
    transformsOf evs `prefix_of` selected host evs /\
    (r = Returns ReturnEnd -> transformsOf evs = selected host evs) /\
    ((forall cs sel, answer_codemods host cs = Some sel ->
                     sel `sublist_of` map choice_value cs) ->
     transformsOf evs `sublist_of` rev (map value catalog)).
Proof.
  intros H.
  destruct (runUpgrade_applies_the_selection _ _ _ _ _ _ _ _ H)
    as (evs & Ht & Hrest).
  exists evs. split; [exact Ht|].
  assert (writesOf evs <> [] \/ r = Returns ReturnEnd ->
          exists appPackageJson installed target peers V appPackageJson'
                 codemods,
            let relevant :=
              relevantCodemods compareVersions catalog installed target in
            upgradable compareVersions host revision w appPackageJson
                       installed target peers /\
            (forall w0, fst (loadHighestNPMVersionMatching host
                               ("react@" +:+ JS.template (peers !! "react"))
                               w0) = Returns V) /\
            (forall w0, fst (turbopackStep compareVersions host target
                               appPackageJson w0) = Returns appPackageJson') /\
            writesOf evs = [(cwd host +:+ "/package.json",
                             JSON_stringify host appPackageJson')] /\
            offered evs = match relevant with
                          | [] => []
                          | _ :: _ => [map toChoice (rev relevant)]
                          end /\
            (match relevant with
             | [] => codemods = []
             | _ :: _ => answer_codemods host (map toChoice (rev relevant))
                         = Some codemods
             end) /\
            selected host evs = codemods) as Hpast
    by (intros Hp; exact (runUpgrade_past_suggestion _ _ _ _ _ _ _ _ _ H Ht Hp)).
  split; [|split; [|exact Hrest]].
  - intros Hend.
    destruct (Hpast (or_intror Hend)) as (? & ? & ? & ? & ? & ? & ? & _ & _
                                          & _ & Hw & _).
    rewrite Hw. discriminate.
  - intros Hw.
    destruct (Hpast (or_introl Hw))
      as (app & i & t & p & V & app' & codemods & Hup & _ & _ & _ & Ho
          & Hans & Hsel).
    cbv zeta in Ho, Hans. subst codemods.
    destruct Hup as (_ & Hres & Hi & Hlt).
    exists i, t, p. cbv zeta. repeat split; assumption.
Qed.

Lemma C1_offered_and_applied_newest_first_witness :
  exists evs,
    trace (snd (Sample.run Sample.host "15.0.0")) = trace Sample.world ++ evs /\
    (fst (Sample.run Sample.host "15.0.0") = Returns ReturnEnd ->
     writesOf evs <> []) /\
    (writesOf evs <> [] ->
     exists installed target peers,
       let relevant :=
         relevantCodemods Sample.compareVersions Sample.catalog installed
                          target in
       installedNext Sample.host = Some installed /\
       resolves Sample.host (Some "15.0.0") target peers /\
       Sample.compareVersions installed target < 0 /\
       offered evs = match relevant with
                     | [] => []
                     | _ :: _ => [map toChoice (rev relevant)]
                     end /\
       match relevant with
       | [] => selected Sample.host evs = []
       | _ :: _ => answer_codemods Sample.host (map toChoice (rev relevant))
                   = Some (selected Sample.host evs)
       end) /\
    (forall cs, cs ∈ offered evs ->
       exists installed target peers,
         installedNext Sample.host = Some installed /\
         resolves Sample.host (Some "15.0.0") target peers /\
         map choice_value cs =
           rev (map value
                  (relevantCodemods Sample.compareVersions Sample.catalog
                     installed target)) /\
         map choice_value cs `sublist_of` rev (map value Sample.catalog)) /\
    transformsOf evs `prefix_of` selected Sample.host evs /\
    (fst (Sample.run Sample.host "15.0.0") = Returns ReturnEnd ->
     transformsOf evs = selected Sample.host evs) /\
    ((forall cs sel, answer_codemods Sample.host cs = Some sel ->
                     sel `sublist_of` map choice_value cs) ->
     transformsOf evs `sublist_of` rev (map value Sample.catalog)).
Proof.
  apply (C1_offered_and_applied_newest_first
           Sample.compareVersions Sample.catalog Sample.host (Some "15.0.0")
           false Sample.world).
  apply surjective_pairing.
Defined.

(** C2, as the code has it.  A failure of the revision, of the detection of
    the installed version or of the [react] query ends the run before the
    manifest is written: the files are unchanged.  A failure of the
    [@types/react] or [@types/react-dom] query is raised after the
    manifest has been written: the run has rewritten [package.json], once,
    with the serialisation of the manifest that was read, as the Turbopack
    step left it, and nothing else has changed on disk. *)
Theorem C2_failures_and_manifest
    (compareVersions : string -> string -> Z)
    (catalog : list VersionCodemods) (host : Host)
    (revision : option string) (verbose : bool)
    (w : World) (e : Error) (w' : World) :
  runUpgrade compareVersions catalog host revision verbose w
  = (Throws e, w') ->
  (resolutionFailure e ->
   files w' = files w /\
   exists evs, trace w' = trace w ++ evs /\ writesOf evs = []) /\
  (typesFailure e ->
   exists evs appPackageJson installed target peers appPackageJson',
     upgradable compareVersions host revision w appPackageJson installed
                target peers /\
     (forall w0, fst (turbopackStep compareVersions host target
                        appPackageJson w0) = Returns appPackageJson') /\
     trace w' = trace w ++ evs /\
     writesOf evs = [(cwd host +:+ "/package.json",
                      JSON_stringify host appPackageJson')] /\
     files w' = <[cwd host +:+ "/package.json"
                  := JSON_stringify host appPackageJson']> (files w)).
Proof.
  intros H.
  destruct (runUpgrade_failure_and_write _ _ _ _ _ _ _ _ H) as [Hres Hty].
  split; [exact Hres|].
  intros He. destruct (Hty He) as (evs & content & Ht & Hw & Hf).
  assert (writesOf evs <> [] \/ Throws e = Returns ReturnEnd) as Hp
    by (left; rewrite Hw; discriminate).
  destruct (runUpgrade_past_suggestion _ _ _ _ _ _ _ _ _ H Ht Hp)
    as (app & i & t & p & V & app' & codemods & Hup & _ & Htp & Hw' & _).
  rewrite Hw in Hw'. injection Hw' as ->.
  exists evs, app, i, t, p, app'. auto.
Qed.

Lemma C2_failures_and_manifest_witness :
  let h := Sample.hostWith "13.0.0" Sample.untyped (Returned true)
                           (fun _ => Returned true) in
  exists evs appPackageJson installed target peers appPackageJson',
    upgradable Sample.compareVersions h (Some "15.0.0") Sample.world
               appPackageJson installed target peers /\
    (forall w0, fst (turbopackStep Sample.compareVersions h target
                       appPackageJson w0) = Returns appPackageJson') /\
    trace (snd (Sample.run h "15.0.0")) = trace Sample.world ++ evs /\
    writesOf evs = [(cwd h +:+ "/package.json",
                     JSON_stringify h appPackageJson')] /\
    files (snd (Sample.run h "15.0.0"))
    = <[cwd h +:+ "/package.json" := JSON_stringify h appPackageJson']>
        (files Sample.world).
Proof.
  refine (proj2 (C2_failures_and_manifest
                   Sample.compareVersions Sample.catalog
                   (Sample.hostWith "13.0.0" Sample.untyped (Returned true)
                                    (fun _ => Returned true))
                   (Some "15.0.0") false Sample.world
                   (NoMatchingVersion ("@types/react@" +:+ Sample.reactRange))
                   (snd (Sample.run
                           (Sample.hostWith "13.0.0" Sample.untyped
                              (Returned true) (fun _ => Returned true))
                           "15.0.0")) _) _).
  - vm_compute. reflexivity.
  - reflexivity.
Defined.
